(** * Service and availability handlers of the booking backend

    A shallow embedding of [src/controller/authController.ts]
    ([ZodForCreateService], [CreateService], [SetAvailability], the route
    table) and of [src/middleware/auth.ts] ([isService_Provider]), with the
    theorems relating them to the availability specification.

    The handlers are written in a small state-and-exception monad: the
    state is the database together with the response channel of the
    request being served, exceptions are the JavaScript throws. *)

From Stdlib Require Import String Ascii List Bool ZArith QArith Lia.
From Stdlib Require Import DecimalString.
Import ListNotations.
Open Scope string_scope.
Open Scope Z_scope.

(** ** JavaScript values carried by a JSON request body *)

(** JSON numbers are finite, so a rational covers every number a body can
    carry (doubles are rationals). *)
#[warnings="-register-all"]
Inductive JsValue : Type :=
| JUndefined
| JNull
| JBool (b : bool)
| JNumber (q : Q)
| JString (s : string)
| JObject (fields : list (string * JsValue)).

Fixpoint lookupField (k : string) (fields : list (string * JsValue)) : JsValue :=
  match fields with
  | [] => JUndefined
  | (k', v) :: rest => if String.eqb k k' then v else lookupField k rest
  end.

(** [obj.key]; the body is [undefined] when no JSON was sent. *)
Definition getField (k : string) (v : JsValue) : option JsValue :=
  match v with
  | JObject fields => Some (lookupField k fields)
  | _ => None
  end.

(** [!s] on a string and [!n] on a number. *)
Definition falsyString (s : string) : bool :=
  match s with EmptyString => true | _ => false end.

Definition falsyNumber (q : Q) : bool := Qeq_bool q 0.

(** [s.split(sep)] for a one-character separator: never the empty array. *)
Fixpoint js_split (sep : ascii) (s : string) : list string :=
  match s with
  | EmptyString => [EmptyString]
  | String c rest =>
      if Ascii.eqb c sep then EmptyString :: js_split sep rest
      else match js_split sep rest with
           | [] => [String c EmptyString]
           | piece :: pieces => String c piece :: pieces
           end
  end.

(** [arr[0]] on the result of a split. *)
Definition index0 (pieces : list string) : string := hd EmptyString pieces.

(** ** Numbers as zod and JavaScript see them *)

(** [Number.isInteger]. *)
Definition isInteger (q : Q) : bool := (Qnum q mod Zpos (Qden q) =? 0)%Z.

(** [Math.trunc]. *)
Definition truncQ (q : Q) : Z := Z.quot (Qnum q) (Zpos (Qden q)).

(** [a % b]: the remainder takes the sign of the dividend and is exact. *)
Definition jsRem (a b : Q) : Q := (a - b * inject_Z (truncQ (a / b)))%Q.

(** ** Persisted records *)

Inductive ServiceType : Type :=
| MEDICAL | HOUSE_HELP | BEAUTY | FITNESS | EDUCATION | OTHER.

Record Principal : Type := mkPrincipal {
  principal_id : string;
  role : string
}.

Record Service : Type := mkService {
  service_id : string;
  service_name : string;
  service_type : ServiceType;
  durationMinutes : Q;
  userId : string
}.

Record Availability : Type := mkAvailability {
  availability_id : string;
  serviceId : string;
  dayOfWeek : Q;
  startTime : string;
  endTime : string
}.

Record Database : Type := mkDatabase {
  services : list Service;
  availabilities : list Availability
}.

(** ** Responses *)

Inductive Payload : Type :=
| ErrorBody (error : string)
| ServiceBody (id name : string) (type : ServiceType) (duration : Q)
| CreatedBody (data : Availability).

Record Response : Type := mkResponse {
  status : Z;
  payload : Payload
}.

(** ** The handler monad *)

Inductive Exn : Type :=
| ZodError
| TypeError
| HeadersSent.

Inductive Outcome (A : Type) : Type :=
| Returned (a : A)
| Thrown (e : Exn).
Arguments Returned {A} a.
Arguments Thrown {A} e.

(** What one request can touch: the database, and the response channel,
    which carries at most one response. *)
Record World : Type := mkWorld {
  db : Database;
  sent : option Response
}.

Definition Handler (A : Type) : Type := World -> Outcome A * World.

Definition ret {A} (a : A) : Handler A := fun w => (Returned a, w).

Definition throw {A} (e : Exn) : Handler A := fun w => (Thrown e, w).

Definition bind {A B} (m : Handler A) (k : A -> Handler B) : Handler B :=
  fun w =>
    match m w with
    | (Returned a, w') => k a w'
    | (Thrown e, w') => (Thrown e, w')
    end.

Definition try_catch {A} (body : Handler A) (handler : Exn -> Handler A) : Handler A :=
  fun w =>
    match body w with
    | (Returned a, w') => (Returned a, w')
    | (Thrown e, w') => handler e w'
    end.

Declare Scope handler_scope.
Delimit Scope handler_scope with handler.
Notation "x <- m ;; k" := (bind m (fun x => k))
  (at level 61, m at next level, right associativity) : handler_scope.
Notation "m ;;; k" := (bind m (fun _ => k))
  (at level 61, right associativity) : handler_scope.
Open Scope handler_scope.

(** [res.status(code).json(body)]: Express answers a request once, a second
    write raises ERR_HTTP_HEADERS_SENT. *)
Definition res_json (code : Z) (body : Payload) : Handler unit :=
  fun w =>
    match sent w with
    | Some _ => (Thrown HeadersSent, w)
    | None => (Returned tt, mkWorld (db w) (Some (mkResponse code body)))
    end.

(** [arr.forEach(cb)]: what the callback returns is dropped, what it throws
    ends the iteration. *)
Fixpoint forEach {A} (arr : list A) (cb : A -> Handler unit) : Handler unit :=
  match arr with
  | [] => ret tt
  | element :: rest => cb element ;;; forEach rest cb
  end.

(** ** The storage interface *)

(** Identifiers are generated by the database; the [n]-th row of a table
    gets the decimal numeral of [n] after the table's prefix. *)
Definition freshId (prefix : string) (n : nat) : string :=
  prefix ++ NilEmpty.string_of_uint (Nat.to_uint n).

Definition prisma_service_findFirst (id : string) : Handler (option Service) :=
  fun w => (Returned (find (fun s => String.eqb (service_id s) id) (services (db w))), w).

Definition prisma_service_create
    (name : string) (duration : Q) (type : ServiceType) (owner : string) : Handler Service :=
  fun w =>
    let row := mkService (freshId "svc-" (length (services (db w)))) name type duration owner in
    (Returned row,
     mkWorld (mkDatabase (services (db w) ++ [row]) (availabilities (db w))) (sent w)).

Definition sameSlot (id : string) (day : Q) (a : Availability) : bool :=
  String.eqb (serviceId a) id && Qeq_bool (dayOfWeek a) day.

Definition prisma_availability_findMany (id : string) (day : Q) : Handler (list Availability) :=
  fun w => (Returned (filter (sameSlot id day) (availabilities (db w))), w).

Definition prisma_availability_create
    (day : Q) (id : string) (endT startT : string) : Handler Availability :=
  fun w =>
    let row := mkAvailability (freshId "av-" (length (availabilities (db w)))) id day startT endT in
    (Returned row,
     mkWorld (mkDatabase (services (db w)) (availabilities (db w) ++ [row])) (sent w)).

(** ** Request bodies and their schemas *)

Record Request : Type := mkRequest {
  authorization : option string;
  req_user : option Principal;
  req_serviceId : string;
  req_body : JsValue
}.

Definition withUser (req : Request) (u : Principal) : Request :=
  mkRequest (authorization req) (Some u) (req_serviceId req) (req_body req).

(** [schema.parse(value)] throws a ZodError when the value is refused. *)
Definition zod_parse {A} (parsed : option A) : Handler A :=
  match parsed with
  | Some a => ret a
  | None => throw ZodError
  end.

Definition z_literal (lit : string) (v : JsValue) : option string :=
  match v with
  | JString s => if String.eqb s lit then Some s else None
  | _ => None
  end.

Definition serviceTypeOfString (s : string) : option ServiceType :=
  if String.eqb s "MEDICAL" then Some MEDICAL
  else if String.eqb s "HOUSE_HELP" then Some HOUSE_HELP
  else if String.eqb s "BEAUTY" then Some BEAUTY
  else if String.eqb s "FITNESS" then Some FITNESS
  else if String.eqb s "EDUCATION" then Some EDUCATION
  else if String.eqb s "OTHER" then Some OTHER
  else None.

Definition z_enum_ServiceType (v : JsValue) : option ServiceType :=
  match v with
  | JString s => serviceTypeOfString s
  | _ => None
  end.

(** The checks chained on [z.number()] for [durationMinutes]:
    [.int().gte(30).lte(120).refine(val => val % 30 === 0)]. *)
Definition durationMinutesChecks (val : Q) : bool :=
  isInteger val && Qle_bool 30 val && Qle_bool val 120 && Qeq_bool (jsRem val 30) 0.

Definition z_durationMinutes (v : JsValue) : option Q :=
  match v with
  | JNumber val => if durationMinutesChecks val then Some val else None
  | _ => None
  end.

Record CreateServiceData : Type := mkCreateServiceData {
  data_name : string;
  data_type : ServiceType;
  data_durationMinutes : Q
}.

Definition ZodForCreateService (value : JsValue) : option CreateServiceData :=
  match getField "name" value, getField "type" value, getField "durationMinutes" value with
  | Some n, Some t, Some d =>
      match z_literal "Physiotherapy" n, z_enum_ServiceType t, z_durationMinutes d with
      | Some name, Some type, Some duration => Some (mkCreateServiceData name type duration)
      | _, _, _ => None
      end
  | _, _, _ => None
  end.

Record SetAvailabilityData : Type := mkSetAvailabilityData {
  data_dayOfWeek : Q;
  data_startTime : string;
  data_endTime : string
}.

(** ** What the handlers import and do not define

    Line 6 of the controller binds [number] and [string] to zod's schema
    factories.  [SetAvailability] uses them in two places: as the entries
    of the [zodForSetAvailability] shape, and as the function applied to
    both operands of every comparison of its overlap loop.  Neither use is
    decided by this repository, so both are parameters of the embedding:
    what [zodForSetAvailability.parse] makes of a body, what [number(x)]
    evaluates to, and the abstract relational comparison (ECMAScript's
    IsLessThan, [None] for undefined) on two such values.  [jwt.verify] is
    the third import. *)
Class Imported : Type := mkImported {
  Operand : Type;
  number : string -> Operand;
  isLessThan : Operand -> Operand -> option bool;
  zodForSetAvailability : JsValue -> option SetAvailabilityData;
  jwt_verify : string -> option Principal
}.

Section Handlers.

Context {imported : Imported}.

(** The relational operators, each derived from IsLessThan as ECMAScript
    derives them. *)
Definition js_lt (x y : Operand) : bool :=
  match isLessThan x y with Some r => r | None => false end.

Definition js_gt (x y : Operand) : bool :=
  match isLessThan y x with Some r => r | None => false end.

Definition js_le (x y : Operand) : bool :=
  match isLessThan y x with Some false => true | _ => false end.

(** ** middleware/auth.ts *)

Definition authenticate (req : Request) (next : Request -> Handler unit) : Handler unit :=
  match authorization req with
  | None => res_json 401 (ErrorBody "Unauthorized")
  | Some authHeader =>
      if negb (String.prefix "Bearer " authHeader)
      then res_json 401 (ErrorBody "Unauthorized")
      else
        let token := String.substring 7 (String.length authHeader - 7) authHeader in
        match jwt_verify token with
        | Some decoded => next (withUser req decoded)
        | None => res_json 401 (ErrorBody "Invalid token")
        end
  end.

Definition roleIs (r : string) (u : option Principal) : bool :=
  match u with
  | Some p => String.eqb (role p) r
  | None => false
  end.

Definition isService_Provider (req : Request) (next : Handler unit) : Handler unit :=
  if negb (roleIs "SERVICE_PROVIDER" (req_user req))
  then try_catch (res_json 403 (ErrorBody "Forbidden (wrong role)"))
                 (fun _ => res_json 403 (ErrorBody "Forbidden (wrong role)"))
  else next.

(** ** controller/authController.ts *)

(** The [if (!data)] branch of the source is dead: [parse] returns an
    object or throws. *)
Definition CreateService (req : Request) : Handler unit :=
  try_catch
    (userId <- match req_user req with
               | Some u => ret (principal_id u)
               | None => throw TypeError
               end ;;
     data <- zod_parse (ZodForCreateService (req_body req)) ;;
     createService <- prisma_service_create
                        (data_name data) (data_durationMinutes data) (data_type data) userId ;;
     res_json 201 (ServiceBody (service_id createService) (service_name createService)
                               (service_type createService) (durationMinutes createService)))
    (fun _ => res_json 500 (ErrorBody " Internal server error")).

(** The callback of the overlap loop.  Both [startSplitDate] and
    [endSplitDate] are split from [element.startTime]; each [return] leaves
    the callback only. *)
Definition overlapCallback (userStartingTime userEndingTime : list string)
    (element : Availability) : Handler unit :=
  let startSplitDate := js_split "," (startTime element) in
  let endSplitDate := js_split "," (startTime element) in
  if js_le (number (index0 startSplitDate)) (number (index0 userStartingTime))
     && js_gt (number (index0 endSplitDate)) (number (index0 userStartingTime))
  then res_json 500 (ErrorBody "Overlapping availability")
  else if js_lt (number (index0 userEndingTime)) (number (index0 startSplitDate))
  then res_json 500 (ErrorBody "Overlapping availability")
  else ret tt.

Definition SetAvailability (req : Request) : Handler unit :=
  try_catch
    (let serviceId := req_serviceId req in
     data <- zod_parse (zodForSetAvailability (req_body req)) ;;
     let startTime := data_startTime data in
     let endTime := data_endTime data in
     let dayOfWeek := data_dayOfWeek data in
     if falsyString startTime || falsyString endTime || falsyNumber dayOfWeek
        || falsyString serviceId
     then res_json 400 (ErrorBody "Invalid input or time format")
     else
       findService <- prisma_service_findFirst serviceId ;;
       match findService with
       | None => res_json 500 (ErrorBody "Service not found")
       | Some _ =>
           findslote <- prisma_availability_findMany serviceId dayOfWeek ;;
           let userStartingTime := js_split "," startTime in
           let userEndingTime := js_split "," endTime in
           (if negb (Nat.eqb (length findslote) 0)
            then forEach findslote (overlapCallback userStartingTime userEndingTime)
            else ret tt) ;;;
           createShedule <- prisma_availability_create dayOfWeek serviceId endTime startTime ;;
           res_json 201 (CreatedBody createShedule)
       end)
    (fun _ => res_json 500 (ErrorBody "Internal server error")).

(** The two routes of the application:
    [app.post("/services", authenticate, isService_Provider, CreateService)] and
    [app.post("/services/:serviceId/availability", authenticate,
    isService_Provider, SetAvailability)]. *)
Definition post_services (req : Request) : Handler unit :=
  authenticate req (fun req' => isService_Provider req' (CreateService req')).

Definition post_services_availability (req : Request) : Handler unit :=
  authenticate req (fun req' => isService_Provider req' (SetAvailability req')).

End Handlers.

(** ** The imports as line 6 binds them *)

(** Tokens of three principals, standing for [jwt.verify] under the
    server's secret. *)
Definition verifyToken (token : string) : option Principal :=
  if String.eqb token "token-provider-1" then Some (mkPrincipal "provider-1" "SERVICE_PROVIDER")
  else if String.eqb token "token-provider-2" then Some (mkPrincipal "provider-2" "SERVICE_PROVIDER")
  else if String.eqb token "token-user-1" then Some (mkPrincipal "user-1" "USER")
  else None.

(** [number] and [string] are zod's factories (line 6), and the source
    uses them uncalled.

    - The shape of [zodForSetAvailability] (lines 31-35) holds the
      factories themselves, not the schemas a call would return.  An
      object schema asks every entry of its shape for a parser; a function
      has none, so [parse] throws whatever the body is.
    - [number(x)] in the overlap loop returns a schema object whatever
      string it is given.  Two objects are compared through their string
      conversions, which are the same string, so IsLessThan answers false.

    [jwt.verify] stays a parameter. *)
Definition zodImports (verify : string -> option Principal) : Imported :=
  mkImported unit (fun _ => tt) (fun _ _ => Some false) (fun _ => None) verify.

Definition schemaOperands : Imported := zodImports verifyToken.

(** ** The specification's side *)

Module Spec.

(** Modelled from the spec: section 3, a half-open interval of
    minutes since midnight. *)
Record TimeRange : Type := mkTimeRange {
  startMinute : Z;
  endMinute : Z
}.

(** Modelled from the spec: section 4.1, [start < other.end && other.start < end]. *)
Definition overlaps (a other : TimeRange) : bool :=
  (startMinute a <? endMinute other) && (startMinute other <? endMinute a).

Definition digit (c : ascii) : option Z :=
  let n := Z.of_nat (nat_of_ascii c) in
  if (48 <=? n) && (n <=? 57) then Some (n - 48) else None.

(** Modelled from the spec: section 4.1, the canonical parser of a time of
    day: two digits, a colon, two digits, the hour below 24 and the minute
    below 60; anything else is InvalidTimeFormat ([None]). *)
Definition parseTimeOfDay (s : string) : option Z :=
  match s with
  | String h1 (String h0 (String sep (String m1 (String m0 EmptyString)))) =>
      match digit h1, digit h0, digit m1, digit m0 with
      | Some a, Some b, Some c, Some d =>
          let hour := 10 * a + b in
          let minute := 10 * c + d in
          if Ascii.eqb sep ":" && (hour <? 24) && (minute <? 60)
          then Some (60 * hour + minute) else None
      | _, _, _, _ => None
      end
  | _ => None
  end.

(** Modelled from the spec: section 4.1, a range is built from two minutes
    of the day with [start < end]. *)
Definition rangeOf (startT endT : string) : option TimeRange :=
  match parseTimeOfDay startT, parseTimeOfDay endT with
  | Some s, Some e => if s <? e then Some (mkTimeRange s e) else None
  | _, _ => None
  end.

Definition windowRange (a : Availability) : option TimeRange :=
  rangeOf (startTime a) (endTime a).

Definition sameKey (a b : Availability) : bool :=
  String.eqb (serviceId a) (serviceId b) && Qeq_bool (dayOfWeek a) (dayOfWeek b).

(** Two stored windows conflict when they have the same key and their
    ranges overlap. *)
Definition conflict (a b : Availability) : bool :=
  sameKey a b &&
  match windowRange a, windowRange b with
  | Some ra, Some rb => overlaps ra rb
  | _, _ => false
  end.

(** Modelled from the spec: section 3, the windows of one key are pairwise
    non-overlapping. *)
Fixpoint pairwiseNonOverlapping (windows : list Availability) : bool :=
  match windows with
  | [] => true
  | a :: rest => forallb (fun b => negb (conflict a b)) rest && pairwiseNonOverlapping rest
  end.

End Spec.

(** ** Fixtures *)

Definition physiotherapy : Service :=
  mkService "svc-0" "Physiotherapy" MEDICAL 30 "provider-1".

Definition availabilityBody (day : Q) (startT endT : string) : JsValue :=
  JObject [("dayOfWeek", JNumber day); ("startTime", JString startT); ("endTime", JString endT)].

Definition serviceBody (name type : string) (duration : JsValue) : JsValue :=
  JObject [("name", JString name); ("type", JString type); ("durationMinutes", duration)].

Definition requestOf (token serviceId : string) (body : JsValue) : Request :=
  mkRequest (Some ("Bearer " ++ token)) None serviceId body.

Definition asUser (u : Principal) (serviceId : string) (body : JsValue) : Request :=
  mkRequest None (Some u) serviceId body.

Definition window (id : string) (day : Q) (startT endT : string) : Availability :=
  mkAvailability id "svc-0" day startT endT.

Definition provider1 : Principal := mkPrincipal "provider-1" "SERVICE_PROVIDER".

Definition fresh (d : Database) : World := mkWorld d None.

(** The status the client received, if any. *)
Definition status_of (r : Outcome unit * World) : option Z :=
  option_map status (sent (snd r)).

(** A sequence of requests served one after the other, each on a fresh
    response channel over the database the previous one left. *)
Fixpoint serve (handler : Request -> Handler unit) (reqs : list Request) (d : Database)
    : Database :=
  match reqs with
  | [] => d
  | req :: rest => serve handler rest (db (snd (handler req (fresh d))))
  end.

(** ** Outcomes of the two handlers *)

Section Decision.

Context {imported : Imported}.

(** The second test of the loop's callback, for the candidate of [data]
    against one stored window. *)
Definition endBelowStart (data : SetAvailabilityData) (element : Availability) : bool :=
  js_lt (number (index0 (js_split "," (data_endTime data))))
        (number (index0 (js_split "," (startTime element)))).

(** The stored windows of the candidate's slot for which the loop writes
    the overlap error. *)
Definition tripped (req : Request) (d : Database) (data : SetAvailabilityData)
    : list Availability :=
  filter (endBelowStart data)
         (filter (sameSlot (req_serviceId req) (data_dayOfWeek data)) (availabilities d)).

End Decision.

Definition truthyFields (req : Request) (data : SetAvailabilityData) : bool :=
  negb (falsyString (data_startTime data) || falsyString (data_endTime data)
        || falsyNumber (data_dayOfWeek data) || falsyString (req_serviceId req)).

Definition findService (req : Request) (d : Database) : option Service :=
  find (fun s => String.eqb (service_id s) (req_serviceId req)) (services d).

Definition answered (d : Database) (code : Z) (error : string) : Outcome unit * World :=
  (Returned tt, mkWorld d (Some (mkResponse code (ErrorBody error)))).

Definition createdRow (req : Request) (d : Database) (data : SetAvailabilityData)
    : Availability :=
  mkAvailability (freshId "av-" (length (availabilities d))) (req_serviceId req)
                 (data_dayOfWeek data) (data_startTime data) (data_endTime data).

Definition overlapReported : option Response :=
  Some (mkResponse 500 (ErrorBody "Overlapping availability")).

Definition typeName (t : ServiceType) : string :=
  match t with
  | MEDICAL => "MEDICAL"
  | HOUSE_HELP => "HOUSE_HELP"
  | BEAUTY => "BEAUTY"
  | FITNESS => "FITNESS"
  | EDUCATION => "EDUCATION"
  | OTHER => "OTHER"
  end.

(** A body value that is an integer from 30 to 120 and a multiple of 30. *)
Definition multipleOf30InRange (v : JsValue) : Prop :=
  exists (q : Q) (n : Z),
    v = JNumber q /\ (q == inject_Z n)%Q /\ 30 <= n <= 120 /\ n mod 30 = 0.

Definition serviceCreated (u : Principal) (data : CreateServiceData) (d : Database)
    : Outcome unit * World :=
  let row := mkService (freshId "svc-" (length (services d))) (data_name data)
                       (data_type data) (data_durationMinutes data) (principal_id u) in
  (Returned tt,
   mkWorld (mkDatabase (services d ++ [row]) (availabilities d))
           (Some (mkResponse 201
              (ServiceBody (service_id row) (data_name data) (data_type data)
                           (data_durationMinutes data))))).

Definition serviceRefused (d : Database) : Outcome unit * World :=
  (Returned tt, mkWorld d (Some (mkResponse 500 (ErrorBody " Internal server error")))).

(** ** Runs that differ only in the stored end times *)

Definition sameButEndTime (a b : Availability) : Prop :=
  availability_id a = availability_id b /\
  serviceId a = serviceId b /\
  dayOfWeek a = dayOfWeek b /\
  startTime a = startTime b.

(** Two worlds agree when they hold the same services, the same response
    channel, and the same windows up to the [endTime] of each. *)
Definition agree (w1 w2 : World) : Prop :=
  services (db w1) = services (db w2) /\
  Forall2 sameButEndTime (availabilities (db w1)) (availabilities (db w2)) /\
  sent w1 = sent w2.

Definition sameOutcome {A} (R : A -> A -> Prop) (r1 r2 : Outcome A * World) : Prop :=
  match fst r1, fst r2 with
  | Returned a1, Returned a2 => R a1 a2
  | Thrown e1, Thrown e2 => e1 = e2
  | _, _ => False
  end /\ agree (snd r1) (snd r2).

Definition related {A} (R : A -> A -> Prop) (m1 m2 : Handler A) : Prop :=
  forall w1 w2, agree w1 w2 -> sameOutcome R (m1 w1) (m2 w2).

(** ** The other role guard and what a route asks of a request *)

(** middleware/auth.ts, [isUser]: the guard of [isService_Provider] for the
    role USER. *)
Definition isUser (req : Request) (next : Handler unit) : Handler unit :=
  if negb (roleIs "USER" (req_user req))
  then try_catch (res_json 403 (ErrorBody "Forbidden (wrong role)"))
                 (fun _ => res_json 403 (ErrorBody "Forbidden (wrong role)"))
  else next.

Section Tokens.

Context {imported : Imported}.

(** The request carries [Authorization: Bearer <token>] and the token
    verifies to a principal of role SERVICE_PROVIDER. *)
Definition providerToken (req : Request) (p : Principal) : Prop :=
  exists token,
    authorization req = Some ("Bearer " ++ token) /\
    jwt_verify token = Some p /\
    role p = "SERVICE_PROVIDER".

End Tokens.

(** A service as the schema of CreateService lets it through. *)
Definition validService (s : Service) : Prop :=
  service_name s = "Physiotherapy" /\ durationMinutesChecks (durationMinutes s) = true.

(** A stored service that the schema would let through and that belongs to
    a verified provider among the senders of [reqs]. *)
Definition storedFor {imported : Imported} (reqs : list Request) (s : Service) : Prop :=
  validService s /\
  exists req p, In req reqs /\ providerToken req p /\ userId s = principal_id p.

(** ** Handlers over the other tables

    [register], [login] and [getServices] answer with bodies of their own
    and work on tables the two handlers above never read.  They are written
    in the same monad, generic in the store and in the body of the
    answer. *)

Inductive Raised : Type :=
| InvalidBody          (* a ZodError *)
| InvalidQuery         (* the validation error of the prisma client *)
| AlreadyAnswered.     (* ERR_HTTP_HEADERS_SENT *)

Inductive Result (A : Type) : Type :=
| Done (a : A)
| Failed (e : Raised).
Arguments Done {A} a.
Arguments Failed {A} e.

Record Reply (Body : Type) : Type := mkReply {
  reply_status : Z;
  reply_body : Body
}.
Arguments mkReply {Body} _ _.
Arguments reply_status {Body} _.
Arguments reply_body {Body} _.

Record Exchange (Store Body : Type) : Type := mkExchange {
  store : Store;
  replied : option (Reply Body)
}.
Arguments mkExchange {Store Body} _ _.
Arguments store {Store Body} _.
Arguments replied {Store Body} _.

Definition Action (Store Body A : Type) : Type :=
  Exchange Store Body -> Result A * Exchange Store Body.

Section Actions.

Context {Store Body : Type}.

Definition done {A} (a : A) : Action Store Body A := fun x => (Done a, x).

Definition fail {A} (e : Raised) : Action Store Body A := fun x => (Failed e, x).

Definition andThen {A B} (m : Action Store Body A) (k : A -> Action Store Body B)
    : Action Store Body B :=
  fun x =>
    match m x with
    | (Done a, x') => k a x'
    | (Failed e, x') => (Failed e, x')
    end.

Definition attempt {A} (body : Action Store Body A) (handler : Raised -> Action Store Body A)
    : Action Store Body A :=
  fun x =>
    match body x with
    | (Done a, x') => (Done a, x')
    | (Failed e, x') => handler e x'
    end.

(** [res.status(code).json(body)]. *)
Definition respond (code : Z) (body : Body) : Action Store Body unit :=
  fun x =>
    match replied x with
    | Some _ => (Failed AlreadyAnswered, x)
    | None => (Done tt, mkExchange (store x) (Some (mkReply code body)))
    end.

Definition reading {A} (f : Store -> A) : Action Store Body A :=
  fun x => (Done (f (store x)), x).

Definition updating {A} (f : Store -> A * Store) : Action Store Body A :=
  fun x => (Done (fst (f (store x))), mkExchange (snd (f (store x))) (replied x)).

(** [schema.parse(value)]. *)
Definition parsed {A} (result : option A) : Action Store Body A :=
  match result with
  | Some a => done a
  | None => fail InvalidBody
  end.

(** A request arriving over a store: nothing answered yet. *)
Definition arriving (s : Store) : Exchange Store Body := mkExchange s None.

Definition replyStatus (r : Result unit * Exchange Store Body) : option Z :=
  option_map reply_status (replied (snd r)).

(** Requests served one after the other over the store the previous one
    left. *)
Fixpoint replay (handler : Request -> Action Store Body unit) (reqs : list Request)
    (s : Store) : Store :=
  match reqs with
  | [] => s
  | req :: rest => replay handler rest (store (snd (handler req (arriving s))))
  end.

End Actions.

Declare Scope action_scope.
Delimit Scope action_scope with action.
Notation "x <- m ;; k" := (andThen m (fun x => k))
  (at level 61, m at next level, right associativity) : action_scope.

(** *** getServices *)

Inductive ServicesBody : Type :=
| ServicesError (error : string)
| ServicesData (data : list Service).

Definition ServiceType_eqb (a b : ServiceType) : bool :=
  match a, b with
  | MEDICAL, MEDICAL | HOUSE_HELP, HOUSE_HELP | BEAUTY, BEAUTY
  | FITNESS, FITNESS | EDUCATION, EDUCATION | OTHER, OTHER => true
  | _, _ => false
  end.

Definition ofType (t : ServiceType) (d : Database) : list Service :=
  filter (fun s => ServiceType_eqb (service_type s) t) (services d).

(** [prisma.service.findMany({ where: { type } })]: the client refuses a
    value that is not one of the enum's names. *)
Definition prisma_service_findMany (type : string)
    : Action Database ServicesBody (list Service) :=
  match serviceTypeOfString type with
  | Some t => reading (ofType t)
  | None => fail InvalidQuery
  end.

(** [!type] on [req.params.type]. *)
Definition falsyParam (type : option string) : bool :=
  match type with
  | None => true
  | Some s => falsyString s
  end.

Definition getServices (type : option string) : Action Database ServicesBody unit :=
  attempt
    (if falsyParam type
     then respond 500 (ServicesError "type not found ")
     else
       (findSvc <- prisma_service_findMany (match type with Some s => s | None => "" end) ;;
        respond 200 (ServicesData findSvc))%action)
    (fun _ => respond 500 (ServicesError "Internal server error")).

(** [app.get("/services", getServices)]: the path has no [:type]
    parameter, so [req.params.type] is undefined. *)
Definition get_services : Action Database ServicesBody unit := getServices None.

(** *** register and login *)

Record User : Type := mkUser {
  user_id : string;
  user_name : string;
  user_email : string;
  passwordHash : string;
  user_role : string
}.

(** The user table, and how many random or clock values the process has
    drawn so far: the salt of each [bcrypt.hash], the issue time of each
    [jwt.sign]. *)
Record Accounts : Type := mkAccounts {
  users : list User;
  drawn : nat
}.

Inductive AuthBody : Type :=
| AuthError (error : string)
| InvalidInput (error : string)       (* with the ZodError as details *)
| UserCreated (message : string)
| TokenIssued (token : string).

(** What [register] and [login] import: zod's email format, bcrypt and
    [jwt.sign] under the server's secret with [expiresIn: "7d"]. *)
Class AuthImported : Type := mkAuthImported {
  emailFormat : string -> bool;
  bcrypt_hash : string -> nat -> string;
  bcrypt_compare : string -> string -> bool;
  jwt_sign : Principal -> nat -> string
}.

(** [z.string().min(n)]; a string is taken as the sequence of its
    characters, and [min] counts them. *)
Definition z_string_min (n : nat) (v : JsValue) : option string :=
  match v with
  | JString s => if Nat.leb n (String.length s) then Some s else None
  | _ => None
  end.

Definition z_role (v : JsValue) : option string :=
  match v with
  | JString s =>
      if String.eqb s "USER" || String.eqb s "SERVICE_PROVIDER" then Some s else None
  | _ => None
  end.

Record RegisterData : Type := mkRegisterData {
  reg_name : string;
  reg_email : string;
  reg_password : string;
  reg_role : string
}.

Record LoginData : Type := mkLoginData {
  login_email : string;
  login_password : string
}.

Section Auth.

Context {auth : AuthImported}.

Definition z_email (v : JsValue) : option string :=
  match v with
  | JString s => if emailFormat s then Some s else None
  | _ => None
  end.

(** utils/validation.ts *)
Definition registerSchema (value : JsValue) : option RegisterData :=
  match getField "name" value, getField "email" value,
        getField "password" value, getField "role" value with
  | Some n, Some e, Some p, Some r =>
      match z_string_min 1 n, z_email e, z_string_min 6 p, z_role r with
      | Some name, Some email, Some password, Some role =>
          Some (mkRegisterData name email password role)
      | _, _, _, _ => None
      end
  | _, _, _, _ => None
  end.

Definition loginSchema (value : JsValue) : option LoginData :=
  match getField "email" value, getField "password" value with
  | Some e, Some p =>
      match z_email e, z_string_min 0 p with
      | Some email, Some password => Some (mkLoginData email password)
      | _, _ => None
      end
  | _, _ => None
  end.

Definition draw : Action Accounts AuthBody nat :=
  updating (fun a => (drawn a, mkAccounts (users a) (S (drawn a)))).

Definition prisma_user_findUnique (email : string) : Action Accounts AuthBody (option User) :=
  reading (fun a => find (fun u => String.eqb (user_email u) email) (users a)).

Definition prisma_user_create (name email hash role : string)
    : Action Accounts AuthBody User :=
  updating (fun a =>
    let row := mkUser (freshId "user-" (length (users a))) name email hash role in
    (row, mkAccounts (users a ++ [row]) (drawn a))).

Definition register (req : Request) : Action Accounts AuthBody unit :=
  attempt
    (validatedData <- parsed (registerSchema (req_body req)) ;;
     existingUser <- prisma_user_findUnique (reg_email validatedData) ;;
     match existingUser with
     | Some _ => respond 409 (AuthError "Email already exists")
     | None =>
         salt <- draw ;;
         let passwordHash := bcrypt_hash (reg_password validatedData) salt in
         user <- prisma_user_create (reg_name validatedData) (reg_email validatedData)
                                    passwordHash (reg_role validatedData) ;;
         respond 201 (UserCreated ("User created Successfully with id " ++ user_id user))
     end)%action
    (fun error =>
       match error with
       | InvalidBody => respond 400 (InvalidInput "Invalid input")
       | _ => respond 500 (AuthError "Internal server error")
       end).

Definition login (req : Request) : Action Accounts AuthBody unit :=
  attempt
    (validatedData <- parsed (loginSchema (req_body req)) ;;
     user <- prisma_user_findUnique (login_email validatedData) ;;
     match user with
     | None => respond 401 (AuthError "Invalid credentials")
     | Some user =>
         if negb (bcrypt_compare (login_password validatedData) (passwordHash user))
         then respond 401 (AuthError "Invalid credentials")
         else
           issued <- draw ;;
           let token := jwt_sign (mkPrincipal (user_id user) (user_role user)) issued in
           respond 200 (TokenIssued token)
     end)%action
    (fun error =>
       match error with
       | InvalidBody => respond 400 (AuthError "Invalid input")
       | _ => respond 500 (AuthError "Internal server error")
       end).

(** The row [register] stores for validated data. *)
Definition newUser (a : Accounts) (data : RegisterData) : User :=
  mkUser (freshId "user-" (length (users a))) (reg_name data) (reg_email data)
         (bcrypt_hash (reg_password data) (drawn a)) (reg_role data).

Definition findByEmail (email : string) (a : Accounts) : option User :=
  find (fun u => String.eqb (user_email u) email) (users a).

(** The token [login] issues to a stored user at issue time [n]. *)
Definition tokenOf (u : User) (n : nat) : string :=
  jwt_sign (mkPrincipal (user_id u) (user_role u)) n.

Definition authAnswer (a : Accounts) (code : Z) (body : AuthBody)
    : Result unit * Exchange Accounts AuthBody :=
  (Done tt, mkExchange a (Some (mkReply code body))).

End Auth.

Definition registerBody (name email password role : string) : JsValue :=
  JObject [("name", JString name); ("email", JString email);
           ("password", JString password); ("role", JString role)].

Definition loginBody (email password : string) : JsValue :=
  JObject [("email", JString email); ("password", JString password)].

Definition bodyOnly (body : JsValue) : Request := mkRequest None None "" body.

(** Stand-ins for the imports of [register] and [login], used to exhibit
    inputs: an address is anything with an "@", a hash is the salt, a "$"
    and the password, a token is the id, the role and the issue time
    joined by dots. *)
Definition plainHash (password : string) (salt : nat) : string :=
  NilEmpty.string_of_uint (Nat.to_uint salt) ++ "$" ++ password.

Definition plainCompare (password hash : string) : bool :=
  match js_split "$" hash with
  | [_; stored] => String.eqb stored password
  | _ => false
  end.

Definition plainSign (p : Principal) (issued : nat) : string :=
  principal_id p ++ "." ++ role p ++ "." ++ NilEmpty.string_of_uint (Nat.to_uint issued).

Definition plainVerify (token : string) : option Principal :=
  match js_split "." token with
  | [id; r; _] => Some (mkPrincipal id r)
  | _ => None
  end.

Definition plainAuth : AuthImported :=
  mkAuthImported
    (fun s => existsb (Ascii.eqb "@") (list_ascii_of_string s))
    plainHash plainCompare plainSign.

Definition plainTokens : Imported := zodImports plainVerify.

(** * Theorems *)

(** ** The handler monad and the JavaScript primitives *)

(** [arr[0]] is always defined on the result of a split. *)
Lemma js_split_nonempty (sep : ascii) (s : string) : js_split sep s <> [].
Proof.
  induction s as [|c rest IH]; simpl.
  - discriminate.
  - destruct (Ascii.eqb c sep); [discriminate|].
    destruct (js_split sep rest); discriminate.
Qed.

Section Generic.

Context {imported : Imported}.

(** [x <= y] and [x > y] are both read off IsLessThan(y, x), and never
    hold together. *)
Lemma js_le_gt_exclusive (x y : Operand) : js_le x y && js_gt x y = false.
Proof.
  unfold js_le, js_gt.
  destruct (isLessThan y x) as [[|]|]; reflexivity.
Qed.

(** The first test of the loop compares the stored start with itself on
    both sides, so only the second test can answer. *)
Lemma overlapCallback_second_test (data : SetAvailabilityData) (element : Availability) :
  overlapCallback (js_split "," (data_startTime data)) (js_split "," (data_endTime data))
                  element =
  if endBelowStart data element
  then res_json 500 (ErrorBody "Overlapping availability")
  else ret tt.
Proof.
  unfold overlapCallback, endBelowStart.
  rewrite js_le_gt_exclusive.
  reflexivity.
Qed.

(** Once a response is out, the loop throws at the next window that trips
    the test. *)
Lemma forEach_after_response (data : SetAvailabilityData)
    (elements : list Availability) (w : World) (r : Response) :
  sent w = Some r ->
  forEach elements
    (overlapCallback (js_split "," (data_startTime data)) (js_split "," (data_endTime data))) w =
  match filter (endBelowStart data) elements with
  | [] => (Returned tt, w)
  | _ :: _ => (Thrown HeadersSent, w)
  end.
Proof.
  intros Hsent.
  induction elements as [|element rest IH]; simpl.
  - reflexivity.
  - unfold bind. rewrite overlapCallback_second_test.
    destruct (endBelowStart data element).
    + unfold res_json. rewrite Hsent. reflexivity.
    + unfold ret. exact IH.
Qed.

(** The loop on a channel still free: silent when no window trips the
    test, one response when one does, a throw on the second. *)
Lemma forEach_first_response (data : SetAvailabilityData)
    (elements : list Availability) (d : Database) :
  forEach elements
    (overlapCallback (js_split "," (data_startTime data)) (js_split "," (data_endTime data)))
    (mkWorld d None) =
  match filter (endBelowStart data) elements with
  | [] => (Returned tt, mkWorld d None)
  | [_] => (Returned tt, mkWorld d overlapReported)
  | _ :: _ :: _ => (Thrown HeadersSent, mkWorld d overlapReported)
  end.
Proof.
  induction elements as [|element rest IH]; simpl.
  - reflexivity.
  - unfold bind. rewrite overlapCallback_second_test.
    destruct (endBelowStart data element).
    + unfold res_json, overlapReported. cbn [sent db].
      rewrite (forEach_after_response data rest
                 (mkWorld d (Some (mkResponse 500 (ErrorBody "Overlapping availability"))))
                 (mkResponse 500 (ErrorBody "Overlapping availability")) eq_refl).
      destruct (filter (endBelowStart data) rest); reflexivity.
    + unfold ret. exact IH.
Qed.

(** The [length != 0] guard changes nothing: the loop over no window is
    silent. *)
Lemma guarded_forEach (elements : list Availability) (cb : Availability -> Handler unit) :
  (if negb (Nat.eqb (length elements) 0) then forEach elements cb else ret tt)
  = forEach elements cb.
Proof. destruct elements; reflexivity. Qed.

(** Every run of the handler on a free channel. *)
Lemma SetAvailability_run (req : Request) (d : Database) :
  SetAvailability req (fresh d) =
  match zodForSetAvailability (req_body req) with
  | None => answered d 500 "Internal server error"
  | Some data =>
      if truthyFields req data then
        match findService req d with
        | None => answered d 500 "Service not found"
        | Some _ =>
            let stored :=
              mkDatabase (services d) (availabilities d ++ [createdRow req d data]) in
            match tripped req d data with
            | [] => (Returned tt,
                     mkWorld stored (Some (mkResponse 201 (CreatedBody (createdRow req d data)))))
            | [_] => (Thrown HeadersSent, mkWorld stored overlapReported)
            | _ :: _ :: _ => (Thrown HeadersSent, mkWorld d overlapReported)
            end
        end
      else answered d 400 "Invalid input or time format"
  end.
Proof.
  unfold SetAvailability, try_catch, bind, zod_parse, truthyFields, findService, tripped.
  destruct (zodForSetAvailability (req_body req)) as [data|]; [|reflexivity].
  unfold ret at 1. cbv beta iota.
  destruct (_ || _); [reflexivity|]. cbn [negb].
  unfold prisma_service_findFirst, prisma_availability_findMany, fresh.
  cbn [db services].
  destruct (find _ (services d)) as [svc|]; [|reflexivity].
  cbn [db availabilities].
  rewrite guarded_forEach, forEach_first_response.
  destruct (filter (endBelowStart data) _) as [|e1 [|e2 more]]; reflexivity.
Qed.

End Generic.

(** ** Runs that differ only in the stored end times *)

Lemma sameButEndTime_refl (a : Availability) : sameButEndTime a a.
Proof. repeat split. Qed.

Lemma related_ret {A} (R : A -> A -> Prop) (a1 a2 : A) :
  R a1 a2 -> related R (ret a1) (ret a2).
Proof. intros HR w1 w2 Hw. split; assumption. Qed.

Lemma related_throw {A} (R : A -> A -> Prop) (e : Exn) :
  related R (throw e) (throw e).
Proof. intros w1 w2 Hw. split; [reflexivity | assumption]. Qed.

Lemma related_bind {A B} (R : A -> A -> Prop) (S : B -> B -> Prop)
    (m1 m2 : Handler A) (k1 k2 : A -> Handler B) :
  related R m1 m2 ->
  (forall a1 a2, R a1 a2 -> related S (k1 a1) (k2 a2)) ->
  related S (bind m1 k1) (bind m2 k2).
Proof.
  intros Hm Hk w1 w2 Hw. unfold bind.
  specialize (Hm w1 w2 Hw). unfold sameOutcome in Hm.
  destruct (m1 w1) as [[a1|e1] w1'], (m2 w2) as [[a2|e2] w2'];
    simpl in Hm; destruct Hm as [Hres Hw'].
  - apply Hk; assumption.
  - contradiction.
  - contradiction.
  - split; assumption.
Qed.

Lemma related_try_catch {A} (R : A -> A -> Prop)
    (b1 b2 : Handler A) (h1 h2 : Exn -> Handler A) :
  related R b1 b2 ->
  (forall e, related R (h1 e) (h2 e)) ->
  related R (try_catch b1 h1) (try_catch b2 h2).
Proof.
  intros Hb Hh w1 w2 Hw. unfold try_catch.
  specialize (Hb w1 w2 Hw). unfold sameOutcome in Hb.
  destruct (b1 w1) as [[a1|e1] w1'], (b2 w2) as [[a2|e2] w2'];
    simpl in Hb; destruct Hb as [Hres Hw'].
  - split; assumption.
  - contradiction.
  - contradiction.
  - subst e2. apply Hh. assumption.
Qed.

Lemma related_res_json (code : Z) (body : Payload) :
  related eq (res_json code body) (res_json code body).
Proof.
  intros w1 w2 [Hs [Ha Hsent]]. unfold res_json. rewrite Hsent.
  destruct (sent w2) eqn:Hw2.
  - split; [reflexivity|]. split; [exact Hs|]. split; [exact Ha|]. simpl. congruence.
  - split; [reflexivity|]. split; [exact Hs|]. split; [exact Ha|]. reflexivity.
Qed.

Lemma related_findFirst (id : string) :
  related eq (prisma_service_findFirst id) (prisma_service_findFirst id).
Proof.
  intros w1 w2 [Hs [Ha Hsent]]. unfold prisma_service_findFirst.
  split; simpl; [rewrite Hs; reflexivity | repeat split; assumption].
Qed.

Lemma sameSlot_sameButEndTime (id : string) (day : Q) (a b : Availability) :
  sameButEndTime a b -> sameSlot id day a = sameSlot id day b.
Proof.
  intros [_ [Hid [Hday _]]]. unfold sameSlot. rewrite Hid, Hday. reflexivity.
Qed.

Lemma filter_sameButEndTime (id : string) (day : Q) (l1 l2 : list Availability) :
  Forall2 sameButEndTime l1 l2 ->
  Forall2 sameButEndTime (filter (sameSlot id day) l1) (filter (sameSlot id day) l2).
Proof.
  induction 1 as [|a b l1 l2 Hab Hrest IH]; simpl.
  - constructor.
  - rewrite (sameSlot_sameButEndTime id day a b Hab).
    destruct (sameSlot id day b); [constructor|]; assumption.
Qed.

Lemma related_findMany (id : string) (day : Q) :
  related (Forall2 sameButEndTime)
          (prisma_availability_findMany id day) (prisma_availability_findMany id day).
Proof.
  intros w1 w2 [Hs [Ha Hsent]]. unfold prisma_availability_findMany.
  split; simpl; [apply filter_sameButEndTime; assumption | repeat split; assumption].
Qed.

Lemma related_create (day : Q) (id endT startT : string) :
  related eq (prisma_availability_create day id endT startT)
             (prisma_availability_create day id endT startT).
Proof.
  intros w1 w2 [Hs [Ha Hsent]]. unfold prisma_availability_create.
  rewrite (Forall2_length Ha).
  split; simpl; [reflexivity|].
  split; [exact Hs|]. split; [|exact Hsent].
  simpl. apply Forall2_app; [exact Ha|].
  constructor; [apply sameButEndTime_refl | constructor].
Qed.

Section EndTime.

Context {imported : Imported}.

(** The callback reads [element.startTime] and nothing else of the row. *)
Lemma overlapCallback_sameButEndTime (us ue : list string) (a b : Availability) :
  sameButEndTime a b -> overlapCallback us ue a = overlapCallback us ue b.
Proof.
  intros [_ [_ [_ Hstart]]]. unfold overlapCallback. rewrite Hstart. reflexivity.
Qed.

Lemma related_forEach (us ue : list string) (l1 l2 : list Availability) :
  Forall2 sameButEndTime l1 l2 ->
  related eq (forEach l1 (overlapCallback us ue)) (forEach l2 (overlapCallback us ue)).
Proof.
  induction 1 as [|a b l1 l2 Hab Hrest IH]; simpl.
  - apply related_ret. reflexivity.
  - rewrite (overlapCallback_sameButEndTime us ue a b Hab).
    apply related_bind with (R := eq).
    + unfold overlapCallback.
      destruct (_ && _); [apply related_res_json|].
      destruct (js_lt _ _); [apply related_res_json | apply related_ret; reflexivity].
    + intros _ _ _. exact IH.
Qed.

Lemma related_SetAvailability (req : Request) :
  related eq (SetAvailability req) (SetAvailability req).
Proof.
  unfold SetAvailability.
  apply related_try_catch; [|intros e; apply related_res_json].
  apply related_bind with (R := eq).
  { unfold zod_parse. destruct (zodForSetAvailability (req_body req)).
    - apply related_ret; reflexivity.
    - apply related_throw. }
  intros data ? <-.
  destruct (_ || _); [apply related_res_json|].
  apply related_bind with (R := eq); [apply related_findFirst|].
  intros found ? <-.
  destruct found as [svc|]; [|apply related_res_json].
  apply related_bind with (R := Forall2 sameButEndTime); [apply related_findMany|].
  intros slots1 slots2 Hslots.
  apply related_bind with (R := eq).
  { rewrite (Forall2_length Hslots).
    destruct (negb _); [apply related_forEach; assumption | apply related_ret; reflexivity]. }
  intros _ _ _.
  apply related_bind with (R := eq); [apply related_create|].
  intros row ? <-. apply related_res_json.
Qed.

End EndTime.

(** ** SetAvailability against the availability specification *)

(** C8: the overlap loop derives both bounds from the stored [startTime]:
    two runs of the handler on stores that differ only in the [endTime] of
    their windows end the same way, send the same response, and leave
    stores that again differ only in those end times. *)
Theorem stored_endTime_never_decides
    {imported : Imported} (req : Request) (w1 w2 : World) :
  agree w1 w2 ->
  fst (SetAvailability req w1) = fst (SetAvailability req w2) /\
  sent (snd (SetAvailability req w1)) = sent (snd (SetAvailability req w2)) /\
  agree (snd (SetAvailability req w1)) (snd (SetAvailability req w2)).
Proof.
  intros Hagree.
  destruct (related_SetAvailability req w1 w2 Hagree) as [Hout Hw].
  split; [|split; [apply Hw | exact Hw]].
  destruct (fst (SetAvailability req w1)) as [[]|e1],
           (fst (SetAvailability req w2)) as [[]|e2];
    try contradiction; congruence.
Qed.

Lemma stored_endTime_never_decides_witness :
  let w1 := fresh (mkDatabase [physiotherapy] [window "av-0" 4 "10:00" "11:00"]) in
  let w2 := fresh (mkDatabase [physiotherapy] [window "av-0" 4 "10:00" "23:00"]) in
  let req := asUser provider1 "svc-0" (availabilityBody 4 "08:00" "09:00") in
  agree w1 w2 /\
  sent (snd (@SetAvailability schemaOperands req w1)) =
    sent (snd (@SetAvailability schemaOperands req w2)).
Proof.
  assert (Hagree :
    agree (fresh (mkDatabase [physiotherapy] [window "av-0" 4 "10:00" "11:00"]))
          (fresh (mkDatabase [physiotherapy] [window "av-0" 4 "10:00" "23:00"]))).
  { split; [reflexivity|]. split; [|reflexivity].
    constructor; [repeat split | constructor]. }
  split; [exact Hagree|].
  exact (proj1 (proj2 (@stored_endTime_never_decides schemaOperands
           (asUser provider1 "svc-0" (availabilityBody 4 "08:00" "09:00")) _ _ Hagree))).
Defined.

(** ** CreateService and its schema *)

Lemma serviceTypeOfString_typeName (t : ServiceType) :
  serviceTypeOfString (typeName t) = Some t.
Proof. destruct t; reflexivity. Qed.

Lemma isInteger_multiple (q : Q) (n : Z) :
  Qnum q = n * Zpos (Qden q) -> isInteger q = true.
Proof.
  intros Hn. unfold isInteger. rewrite Hn, Z_mod_mult. reflexivity.
Qed.

Lemma isInteger_quotient (q : Q) :
  isInteger q = true -> Qnum q = (Qnum q / Zpos (Qden q)) * Zpos (Qden q).
Proof.
  unfold isInteger. intros Hmod. apply Z.eqb_eq in Hmod.
  pose proof (Z.div_mod (Qnum q) (Zpos (Qden q))) as Hdm.
  rewrite Hmod in Hdm. rewrite Z.mul_comm. lia.
Qed.

Lemma Qeq_inject_Z_multiple (q : Q) (n : Z) :
  (q == inject_Z n)%Q <-> Qnum q = n * Zpos (Qden q).
Proof.
  unfold Qeq. simpl. rewrite Z.mul_1_r. reflexivity.
Qed.

Lemma truncQ_div_30 (q : Q) (n : Z) :
  Qnum q = n * Zpos (Qden q) -> truncQ (q / 30) = Z.quot n 30.
Proof.
  intros Hn. unfold truncQ, Qdiv, Qmult, Qinv. simpl.
  rewrite Hn, Z.mul_1_r, Pos2Z.inj_mul.
  rewrite (Z.mul_comm n). apply Z.quot_mul_cancel_l; lia.
Qed.

Lemma jsRem_30_of_integer (q : Q) (n : Z) :
  Qnum q = n * Zpos (Qden q) -> (jsRem q 30 == inject_Z (Z.rem n 30))%Q.
Proof.
  intros Hn. unfold jsRem. rewrite (truncQ_div_30 q n Hn).
  apply Qeq_inject_Z_multiple in Hn. rewrite Hn.
  pose proof (Z.quot_rem' n 30) as Hqr.
  change 30%Q with (inject_Z 30). unfold Qminus.
  rewrite <- inject_Z_mult, <- inject_Z_opp, <- inject_Z_plus.
  apply inject_Z_injective. lia.
Qed.

(** The chained checks accept the integers 30, 60, 90 and 120, and nothing
    else. *)
Lemma durationMinutesChecks_spec (q : Q) :
  durationMinutesChecks q = true <->
  exists n, (q == inject_Z n)%Q /\ 30 <= n <= 120 /\ n mod 30 = 0.
Proof.
  unfold durationMinutesChecks. rewrite !andb_true_iff. split.
  - intros [[[Hint Hge] Hle] Hrem].
    pose proof (isInteger_quotient q Hint) as Hn.
    set (n := Qnum q / Zpos (Qden q)) in *.
    exists n. split; [apply Qeq_inject_Z_multiple; exact Hn|].
    apply Qle_bool_iff in Hge, Hle. apply Qeq_bool_iff in Hrem.
    rewrite (jsRem_30_of_integer q n Hn) in Hrem.
    unfold Qle in Hge, Hle. simpl in Hge, Hle. rewrite Hn in Hge, Hle.
    unfold Qeq in Hrem. simpl in Hrem.
    assert (Hrange : 30 <= n <= 120) by nia.
    split; [exact Hrange|].
    rewrite <- Z.rem_mod_nonneg by lia. lia.
  - intros [n [Hq [Hrange Hmod]]].
    apply Qeq_inject_Z_multiple in Hq.
    repeat split.
    + exact (isInteger_multiple q n Hq).
    + apply Qle_bool_iff. unfold Qle. simpl. rewrite Hq. nia.
    + apply Qle_bool_iff. unfold Qle. simpl. rewrite Hq. nia.
    + apply Qeq_bool_iff. rewrite (jsRem_30_of_integer q n Hq).
      rewrite Z.rem_mod_nonneg by lia. rewrite Hmod. reflexivity.
Qed.

Lemma z_durationMinutes_accepts (v : JsValue) (q : Q) :
  z_durationMinutes v = Some q -> multipleOf30InRange v.
Proof.
  destruct v as [| |b|val|s|fields]; simpl; try discriminate.
  destruct (durationMinutesChecks val) eqn:Hchecks; [|discriminate].
  intros _. apply durationMinutesChecks_spec in Hchecks.
  destruct Hchecks as [n Hn]. exists val, n. split; [reflexivity | exact Hn].
Qed.

Lemma z_durationMinutes_refuses (v : JsValue) :
  z_durationMinutes v = None -> ~ multipleOf30InRange v.
Proof.
  intros Hnone [q [n [Hv Hn]]]. subst v. simpl in Hnone.
  assert (Hchecks : durationMinutesChecks q = true)
    by (apply durationMinutesChecks_spec; exists n; exact Hn).
  rewrite Hchecks in Hnone. discriminate.
Qed.

Section Create.

Context {imported : Imported}.

Lemma CreateService_run (req : Request) (d : Database) :
  CreateService req (fresh d) =
  match req_user req, ZodForCreateService (req_body req) with
  | Some u, Some data => serviceCreated u data d
  | _, _ => serviceRefused d
  end.
Proof.
  unfold CreateService, try_catch, bind.
  destruct (req_user req) as [u|]; [|reflexivity].
  unfold ret at 1. cbv beta iota.
  destruct (ZodForCreateService (req_body req)) as [data|]; reflexivity.
Qed.

Lemma ZodForCreateService_serviceBody (t : ServiceType) (v : JsValue) :
  ZodForCreateService (serviceBody "Physiotherapy" (typeName t) v) =
  option_map (mkCreateServiceData "Physiotherapy" t) (z_durationMinutes v).
Proof.
  unfold ZodForCreateService, serviceBody. cbn [getField lookupField String.eqb Ascii.eqb Bool.eqb].
  cbn [z_literal String.eqb Ascii.eqb Bool.eqb z_enum_ServiceType].
  rewrite serviceTypeOfString_typeName.
  destruct (z_durationMinutes v); reflexivity.
Qed.

Lemma ZodForCreateService_name (value : JsValue) (data : CreateServiceData) :
  ZodForCreateService value = Some data ->
  getField "name" value = Some (JString "Physiotherapy").
Proof.
  unfold ZodForCreateService.
  destruct (getField "name" value) as [n|]; [|discriminate].
  destruct (getField "type" value) as [t|]; [|discriminate].
  destruct (getField "durationMinutes" value) as [dm|]; [|discriminate].
  destruct n as [| |b|q|s|fields]; simpl; try discriminate.
  destruct (String.eqb s "Physiotherapy") eqn:Hs; [|discriminate].
  apply String.eqb_eq in Hs. subst s. reflexivity.
Qed.

End Create.

(** C9: CreateService accepts a [durationMinutes] exactly when it is an
    integer from 30 to 120 and a multiple of 30.  With the other fields of
    the body valid, such a value creates the service and is answered 201;
    any other value is refused by the schema, the answer is not 201 and
    the database is unchanged. *)
Theorem CreateService_durationMinutes
    {imported : Imported} (u : Principal) (t : ServiceType) (v : JsValue) (d : Database) :
  let req := asUser u "" (serviceBody "Physiotherapy" (typeName t) v) in
  let r := CreateService req (fresh d) in
  (status_of r = Some 201 <-> multipleOf30InRange v) /\
  (multipleOf30InRange v ->
   exists q, v = JNumber q /\
             r = serviceCreated u (mkCreateServiceData "Physiotherapy" t q) d) /\
  (~ multipleOf30InRange v ->
   ZodForCreateService (req_body req) = None /\ r = serviceRefused d).
Proof.
  cbv zeta. rewrite CreateService_run.
  cbn [req_user req_body asUser].
  rewrite ZodForCreateService_serviceBody.
  destruct (z_durationMinutes v) as [q|] eqn:Hz; cbn [option_map].
  - pose proof (z_durationMinutes_accepts v q Hz) as Hacc.
    split; [split; [intros _; exact Hacc | intros _; reflexivity]|].
    split; [|intros Hno; contradiction].
    intros _. exists q. split; [|reflexivity].
    destruct v as [| |b|val|s|fields]; simpl in Hz; try discriminate.
    destruct (durationMinutesChecks val); congruence.
  - pose proof (z_durationMinutes_refuses v Hz) as Hrej.
    split; [split; [discriminate | intros Hyes; contradiction]|].
    split; [intros Hyes; contradiction|].
    intros _. split; reflexivity.
Qed.

(** C10: CreateService accepts a body only if its [name] is exactly the
    string "Physiotherapy": a request that creates a service or is answered
    201 carries that name, and a request with any other name is refused
    with the database unchanged. *)
Theorem CreateService_requires_Physiotherapy
    {imported : Imported} (req : Request) (d : Database) :
  let r := CreateService req (fresh d) in
  (status_of r = Some 201 \/ db (snd r) <> d ->
   getField "name" (req_body req) = Some (JString "Physiotherapy")) /\
  (getField "name" (req_body req) <> Some (JString "Physiotherapy") ->
   ZodForCreateService (req_body req) = None /\ r = serviceRefused d).
Proof.
  cbv zeta. rewrite CreateService_run.
  destruct (ZodForCreateService (req_body req)) as [data|] eqn:Hparse.
  - pose proof (ZodForCreateService_name _ _ Hparse) as Hname.
    split; [intros _; exact Hname | intros Hno; contradiction].
  - assert (Hrefused :
      match req_user req with Some _ => serviceRefused d | None => serviceRefused d end
      = serviceRefused d) by (destruct (req_user req); reflexivity).
    rewrite Hrefused. split.
    + intros [H201 | Hdb]; [discriminate | exfalso; apply Hdb; reflexivity].
    + intros _. split; reflexivity.
Qed.

(** ** The routes *)

Lemma substring_whole (s : string) : String.substring 0 (String.length s) s = s.
Proof.
  induction s as [|c rest IH]; simpl; [reflexivity | rewrite IH; reflexivity].
Qed.

(** A header with the prefix is the prefix followed by what
    [substring(prefix.length)] returns. *)
Lemma prefix_substring (p h : string) :
  String.prefix p h = true ->
  h = p ++ String.substring (String.length p) (String.length h - String.length p) h.
Proof.
  revert h. induction p as [|a p IH]; intros h; simpl.
  - intros _. rewrite Nat.sub_0_r, substring_whole. reflexivity.
  - destruct h as [|b h]; simpl; [discriminate|].
    destruct (Ascii.ascii_dec a b) as [->|]; [|discriminate].
    intros Hprefix. rewrite <- (IH h Hprefix). reflexivity.
Qed.

Section Routes.

Context {imported : Imported}.

(** What the two middlewares leave to the handler behind them: either they
    answer 401 or 403 themselves, whatever the handler, or they hand it the
    request with the verified provider as [req.user]. *)
Lemma guarded_route (req : Request) (d : Database) :
  (exists code error,
     (code = 401 \/ code = 403) /\
     forall handler : Request -> Handler unit,
       authenticate req (fun req' => isService_Provider req' (handler req')) (fresh d)
       = answered d code error) \/
  (exists p,
     providerToken req p /\
     forall handler : Request -> Handler unit,
       authenticate req (fun req' => isService_Provider req' (handler req')) (fresh d)
       = handler (withUser req p) (fresh d)).
Proof.
  unfold authenticate.
  destruct (authorization req) as [authHeader|] eqn:Hheader;
    [|left; exists 401, "Unauthorized"; split; [left|]; reflexivity].
  destruct (String.prefix "Bearer " authHeader) eqn:Hprefix;
    [|left; exists 401, "Unauthorized"; split; [left|]; reflexivity].
  cbn [negb].
  destruct (jwt_verify _) as [decoded|] eqn:Hverify;
    [|left; exists 401, "Invalid token"; split; [left|]; reflexivity].
  unfold isService_Provider. cbn [req_user withUser roleIs].
  destruct (String.eqb (role decoded) "SERVICE_PROVIDER") eqn:Hrole;
    [|left; exists 403, "Forbidden (wrong role)"; split; [right|]; reflexivity].
  right. exists decoded. split; [|reflexivity].
  exists (String.substring 7 (String.length authHeader - 7) authHeader).
  split; [|split; [exact Hverify | apply String.eqb_eq; exact Hrole]].
  rewrite Hheader. apply f_equal.
  exact (prefix_substring "Bearer " authHeader Hprefix).
Qed.

(** One call of SetAvailability: the services are untouched, the stored
    windows stay where they are, and at most one is added after them. *)
Lemma SetAvailability_frame (req : Request) (d : Database) :
  services (db (snd (SetAvailability req (fresh d)))) = services d /\
  exists added,
    availabilities (db (snd (SetAvailability req (fresh d)))) = (availabilities d ++ added)%list /\
    (length added <= 1)%nat.
Proof.
  rewrite SetAvailability_run.
  assert (Hsame : forall code error,
    services (db (snd (answered d code error))) = services d /\
    exists added,
      availabilities (db (snd (answered d code error))) = (availabilities d ++ added)%list /\
      (length added <= 1)%nat).
  { intros code error. split; [reflexivity|].
    exists []. split; [simpl; rewrite app_nil_r; reflexivity | simpl; lia]. }
  destruct (zodForSetAvailability (req_body req)) as [data|]; [|apply Hsame].
  destruct (truthyFields req data); [|apply Hsame].
  destruct (findService req d) as [svc|]; [|apply Hsame].
  cbv zeta.
  destruct (tripped req d data) as [|e1 [|e2 more]]; cbn [snd db services availabilities].
  - split; [reflexivity|]. exists [createdRow req d data]. split; [reflexivity | simpl; lia].
  - split; [reflexivity|]. exists [createdRow req d data]. split; [reflexivity | simpl; lia].
  - split; [reflexivity|]. exists []. split; [rewrite app_nil_r; reflexivity | simpl; lia].
Qed.

Lemma post_services_availability_frame (req : Request) (d : Database) :
  services (db (snd (post_services_availability req (fresh d)))) = services d /\
  exists added,
    availabilities (db (snd (post_services_availability req (fresh d))))
      = (availabilities d ++ added)%list /\
    (length added <= 1)%nat.
Proof.
  unfold post_services_availability.
  destruct (guarded_route req d) as [[code [error [_ Hr]]]|[p [_ Hr]]]; rewrite Hr.
  - split; [reflexivity|]. exists [].
    split; [simpl; rewrite app_nil_r; reflexivity | simpl; lia].
  - apply SetAvailability_frame.
Qed.

End Routes.

(** Whatever requests reach POST /services/:serviceId/availability, in
    whatever order, the services are never touched and no stored window is
    ever removed, moved or rewritten: the windows stored at the start are
    still the first rows at the end, and each request adds at most one. *)
Theorem availability_route_only_appends_windows
    {imported : Imported} (reqs : list Request) (d : Database) :
  services (serve post_services_availability reqs d) = services d /\
  exists added,
    availabilities (serve post_services_availability reqs d) = (availabilities d ++ added)%list /\
    (length added <= length reqs)%nat.
Proof.
  revert d. induction reqs as [|req rest IH]; intros d; simpl.
  - split; [reflexivity|]. exists []. split; [rewrite app_nil_r; reflexivity | simpl; lia].
  - destruct (post_services_availability_frame req d) as [Hservices [first [Hfirst Hone]]].
    destruct (IH (db (snd (post_services_availability req (fresh d)))))
      as [Hservices' [later [Hlater Hmany]]].
    split; [rewrite Hservices'; exact Hservices|].
    exists (first ++ later)%list. split.
    + rewrite Hlater, Hfirst, app_assoc. reflexivity.
    + rewrite length_app. lia.
Qed.

(** A request without a bearer token that verifies to a SERVICE_PROVIDER
    gets the same answer from both routes, 401 or 403, and changes
    nothing. *)
Theorem routes_need_a_provider_token
    {imported : Imported} (req : Request) (d : Database) :
  (forall p, ~ providerToken req p) ->
  post_services req (fresh d) = post_services_availability req (fresh d) /\
  db (snd (post_services req (fresh d))) = d /\
  (status_of (post_services req (fresh d)) = Some 401 \/
   status_of (post_services req (fresh d)) = Some 403).
Proof.
  intros Hnone. unfold post_services, post_services_availability.
  destruct (guarded_route req d) as [[code [error [Hcode Hr]]]|[p [Hp _]]];
    [|exfalso; exact (Hnone p Hp)].
  rewrite !Hr. split; [reflexivity|]. split; [reflexivity|].
  destruct Hcode as [-> | ->]; [left | right]; reflexivity.
Qed.

Lemma routes_need_a_provider_token_witness :
  let d := mkDatabase [physiotherapy] [] in
  let req := requestOf "token-user-1" "svc-0" (availabilityBody 4 "09:00" "12:00") in
  @post_services schemaOperands req (fresh d)
    = @post_services_availability schemaOperands req (fresh d) /\
  db (snd (@post_services schemaOperands req (fresh d))) = d /\
  (status_of (@post_services schemaOperands req (fresh d)) = Some 401 \/
   status_of (@post_services schemaOperands req (fresh d)) = Some 403).
Proof.
  refine (@routes_need_a_provider_token schemaOperands
            (requestOf "token-user-1" "svc-0" (availabilityBody 4 "09:00" "12:00"))
            (mkDatabase [physiotherapy] []) _).
  intros p [token [Hheader [Hverify Hrole]]].
  injection Hheader as Htoken. subst token.
  vm_compute in Hverify. injection Hverify as Hp. subst p. discriminate Hrole.
Defined.

(** The two role guards exclude each other: no request passes both, in
    either order. *)
Theorem role_guards_exclude_each_other
    (req : Request) (next : Handler unit) (d : Database) :
  isUser req (isService_Provider req next) (fresh d)
    = answered d 403 "Forbidden (wrong role)" /\
  isService_Provider req (isUser req next) (fresh d)
    = answered d 403 "Forbidden (wrong role)".
Proof.
  unfold isUser, isService_Provider, roleIs.
  destruct (req_user req) as [p|]; [|split; reflexivity].
  destruct (String.eqb (role p) "USER") eqn:Huser.
  - apply String.eqb_eq in Huser. rewrite Huser. split; reflexivity.
  - destruct (String.eqb (role p) "SERVICE_PROVIDER"); split; reflexivity.
Qed.

Lemma ZodForCreateService_valid (value : JsValue) (data : CreateServiceData) :
  ZodForCreateService value = Some data ->
  data_name data = "Physiotherapy" /\
  durationMinutesChecks (data_durationMinutes data) = true.
Proof.
  unfold ZodForCreateService.
  destruct (getField "name" value) as [n|]; [|discriminate].
  destruct (getField "type" value) as [t|]; [|discriminate].
  destruct (getField "durationMinutes" value) as [dm|]; [|discriminate].
  destruct (z_literal "Physiotherapy" n) as [name|] eqn:Hname; [|discriminate].
  destruct (z_enum_ServiceType t) as [type|]; [|discriminate].
  destruct (z_durationMinutes dm) as [duration|] eqn:Hduration; [|discriminate].
  intros Hdata. injection Hdata as <-. cbn [data_name data_durationMinutes].
  split.
  - destruct n as [| |b|q|s|fields]; simpl in Hname; try discriminate.
    destruct (String.eqb s "Physiotherapy") eqn:Hs; [|discriminate].
    apply String.eqb_eq in Hs. congruence.
  - destruct dm as [| |b|q|s|fields]; simpl in Hduration; try discriminate.
    destruct (durationMinutesChecks q) eqn:Hchecks; [|discriminate].
    congruence.
Qed.

Section ServicesRoute.

Context {imported : Imported}.

Lemma post_services_frame (req : Request) (d : Database) :
  availabilities (db (snd (post_services req (fresh d)))) = availabilities d /\
  exists added,
    services (db (snd (post_services req (fresh d)))) = (services d ++ added)%list /\
    (length added <= 1)%nat /\
    Forall (storedFor [req]) added.
Proof.
  unfold post_services.
  destruct (guarded_route req d) as [[code [error [_ Hr]]]|[p [Hp Hr]]]; rewrite Hr.
  - split; [reflexivity|]. exists [].
    split; [simpl; rewrite app_nil_r; reflexivity|]. split; [simpl; lia | constructor].
  - rewrite CreateService_run. cbn [req_user req_body withUser].
    destruct (ZodForCreateService (req_body req)) as [data|] eqn:Hparse.
    + destruct (ZodForCreateService_valid _ _ Hparse) as [Hname Hduration].
      split; [reflexivity|]. eexists. split; [reflexivity|]. split; [simpl; lia|].
      constructor; [|constructor].
      split; [split; assumption|].
      exists req, p. split; [left; reflexivity|]. split; [exact Hp | reflexivity].
    + split; [reflexivity|]. exists [].
      split; [simpl; rewrite app_nil_r; reflexivity|]. split; [simpl; lia | constructor].
Qed.

Lemma storedFor_more (reqs reqs' : list Request) (s : Service) :
  (forall req, In req reqs -> In req reqs') -> storedFor reqs s -> storedFor reqs' s.
Proof.
  intros Hincl [Hvalid [req [p [Hin Hrest]]]].
  split; [exact Hvalid|]. exists req, p. split; [apply Hincl; exact Hin | exact Hrest].
Qed.

End ServicesRoute.

(** Whatever requests reach POST /services, in whatever order, the windows
    are never touched, no stored service is removed or rewritten, and every
    service added is named "Physiotherapy", has a duration the schema
    accepts, and is owned by a verified SERVICE_PROVIDER who sent one of
    the requests. *)
Theorem services_route_only_stores_valid_services
    {imported : Imported} (reqs : list Request) (d : Database) :
  availabilities (serve post_services reqs d) = availabilities d /\
  exists added,
    services (serve post_services reqs d) = (services d ++ added)%list /\
    (length added <= length reqs)%nat /\
    Forall (storedFor reqs) added.
Proof.
  revert d. induction reqs as [|req rest IH]; intros d; simpl.
  - split; [reflexivity|]. exists [].
    split; [rewrite app_nil_r; reflexivity|]. split; [simpl; lia | constructor].
  - destruct (post_services_frame req d) as [Hwindows [first [Hfirst [Hone Hvalid]]]].
    destruct (IH (db (snd (post_services req (fresh d)))))
      as [Hwindows' [later [Hlater [Hmany Hvalid']]]].
    split; [rewrite Hwindows'; exact Hwindows|].
    exists (first ++ later)%list. split; [|split].
    + rewrite Hlater, Hfirst, app_assoc. reflexivity.
    + rewrite length_app. lia.
    + apply Forall_app. split.
      * eapply Forall_impl; [|exact Hvalid].
        intros s. apply storedFor_more. intros r [<-|[]]. left; reflexivity.
      * eapply Forall_impl; [|exact Hvalid'].
        intros s. apply storedFor_more. intros r Hr. right; exact Hr.
Qed.

(** ** getServices *)

Lemma serviceTypeOfString_inv (s : string) (t : ServiceType) :
  serviceTypeOfString s = Some t -> s = typeName t.
Proof.
  unfold serviceTypeOfString.
  repeat match goal with
  | |- context [String.eqb s ?name] =>
      let H := fresh "H" in
      destruct (String.eqb s name) eqn:H;
      [apply String.eqb_eq in H; intros Ht; injection Ht as <-; exact H|]
  end.
  discriminate.
Qed.

Lemma typeName_not_falsy (t : ServiceType) : falsyString (typeName t) = false.
Proof. destruct t; reflexivity. Qed.

(** Every run of [getServices] on a request not yet answered. *)
Lemma getServices_run (type : option string) (d : Database) :
  getServices type (arriving d) =
  (Done tt,
   mkExchange d
     (Some (if falsyParam type
            then mkReply 500 (ServicesError "type not found ")
            else match serviceTypeOfString (match type with Some s => s | None => "" end) with
                 | Some t => mkReply 200 (ServicesData (ofType t d))
                 | None => mkReply 500 (ServicesError "Internal server error")
                 end))).
Proof.
  unfold getServices, attempt.
  destruct (falsyParam type); [reflexivity|].
  unfold andThen, prisma_service_findMany.
  destruct (serviceTypeOfString _); reflexivity.
Qed.

(** [getServices] never writes; it answers 200 exactly when the [type]
    parameter is one of the six names of the enum, and 500 otherwise (a
    missing or empty parameter, a name in another case, any other string).
    As routed, under a path without a [:type] parameter, it therefore
    answers 500 "type not found " whatever the database holds. *)
Theorem getServices_lists_only_for_an_enum_name (type : option string) (d : Database) :
  store (snd (getServices type (arriving d))) = d /\
  (replyStatus (getServices type (arriving d)) = Some 200 <->
   exists t, type = Some (typeName t)) /\
  (replyStatus (getServices type (arriving d)) = Some 200 \/
   replyStatus (getServices type (arriving d)) = Some 500) /\
  get_services (arriving d) =
  (Done tt, mkExchange d (Some (mkReply 500 (ServicesError "type not found ")))).
Proof.
  unfold get_services. rewrite !getServices_run. unfold replyStatus. cbn [snd store replied].
  split; [reflexivity|]. split; [|split; [|reflexivity]].
  - split.
    + destruct type as [s|]; cbn [falsyParam]; [|discriminate].
      destruct (falsyString s); [discriminate|].
      destruct (serviceTypeOfString s) as [t|] eqn:Ht; [|discriminate].
      intros _. exists t. rewrite (serviceTypeOfString_inv s t Ht). reflexivity.
    + intros [t ->]. cbn [falsyParam].
      rewrite typeName_not_falsy, serviceTypeOfString_typeName. reflexivity.
  - destruct (falsyParam type); [right; reflexivity|].
    destruct (serviceTypeOfString _); [left | right]; reflexivity.
Qed.

Lemma ServiceType_eqb_refl (t : ServiceType) : ServiceType_eqb t t = true.
Proof. destruct t; reflexivity. Qed.

(** A service created through CreateService is listed by [getServices] for
    its type, last, after the services of that type stored before it. *)
Theorem created_service_is_listed
    (u : Principal) (t : ServiceType) (q : Q) (d : Database) :
  multipleOf30InRange (JNumber q) ->
  let req := asUser u "" (serviceBody "Physiotherapy" (typeName t) (JNumber q)) in
  let d' := db (snd (CreateService req (fresh d))) in
  getServices (Some (typeName t)) (arriving d') =
  (Done tt,
   mkExchange d'
     (Some (mkReply 200
        (ServicesData
           (ofType t d ++
            [mkService (freshId "svc-" (length (services d))) "Physiotherapy" t q
                       (principal_id u)]))))).
Proof.
  intros Hduration req d'.
  assert (Hchecks : durationMinutesChecks q = true).
  { destruct Hduration as [q' [n [Hq Hn]]]. injection Hq as <-.
    apply durationMinutesChecks_spec. exists n. exact Hn. }
  rewrite getServices_run. cbn [falsyParam].
  rewrite typeName_not_falsy, serviceTypeOfString_typeName.
  subst d' req. rewrite CreateService_run. cbn [req_user req_body asUser].
  rewrite ZodForCreateService_serviceBody. cbn [z_durationMinutes].
  rewrite Hchecks. cbn [option_map].
  unfold serviceCreated, ofType.
  cbn [snd db services data_name data_type data_durationMinutes].
  rewrite filter_app. cbn [filter service_type].
  rewrite ServiceType_eqb_refl. reflexivity.
Qed.

Lemma created_service_is_listed_witness :
  let d := mkDatabase [physiotherapy] [] in
  let req := asUser provider1 "" (serviceBody "Physiotherapy" "MEDICAL" (JNumber 60)) in
  let d' := db (snd (CreateService req (fresh d))) in
  getServices (Some "MEDICAL") (arriving d') =
  (Done tt,
   mkExchange d'
     (Some (mkReply 200
        (ServicesData
           [physiotherapy; mkService "svc-1" "Physiotherapy" MEDICAL 60 "provider-1"])))).
Proof.
  apply (created_service_is_listed provider1 MEDICAL 60
           (mkDatabase [physiotherapy] [])).
  exists 60%Q, 60. repeat split; try reflexivity; lia.
Defined.

(** ** register and login *)

Section AuthRuns.

Context {auth : AuthImported}.

(** Every run of [register] on a request not yet answered. *)
Lemma register_run (req : Request) (a : Accounts) :
  register req (arriving a) =
  match registerSchema (req_body req) with
  | None => authAnswer a 400 (InvalidInput "Invalid input")
  | Some data =>
      match findByEmail (reg_email data) a with
      | Some _ => authAnswer a 409 (AuthError "Email already exists")
      | None =>
          authAnswer (mkAccounts (users a ++ [newUser a data]) (S (drawn a))) 201
            (UserCreated ("User created Successfully with id " ++ user_id (newUser a data)))
      end
  end.
Proof.
  unfold register, attempt, andThen, parsed, findByEmail.
  destruct (registerSchema (req_body req)) as [data|]; [|reflexivity].
  unfold done at 1. cbv beta iota.
  unfold prisma_user_findUnique, reading, arriving. cbn [store].
  destruct (find _ (users a)) as [existing|]; reflexivity.
Qed.

(** Every run of [login] on a request not yet answered. *)
Lemma login_run (req : Request) (a : Accounts) :
  login req (arriving a) =
  match loginSchema (req_body req) with
  | None => authAnswer a 400 (AuthError "Invalid input")
  | Some data =>
      match findByEmail (login_email data) a with
      | None => authAnswer a 401 (AuthError "Invalid credentials")
      | Some user =>
          if bcrypt_compare (login_password data) (passwordHash user)
          then authAnswer (mkAccounts (users a) (S (drawn a))) 200
                 (TokenIssued (tokenOf user (drawn a)))
          else authAnswer a 401 (AuthError "Invalid credentials")
      end
  end.
Proof.
  unfold login, attempt, andThen, parsed, findByEmail.
  destruct (loginSchema (req_body req)) as [data|]; [|reflexivity].
  unfold done at 1. cbv beta iota.
  unfold prisma_user_findUnique, reading, arriving. cbn [store].
  destruct (find _ (users a)) as [user|]; [|reflexivity].
  destruct (bcrypt_compare _ _); reflexivity.
Qed.

Lemma findByEmail_none (email : string) (a : Accounts) :
  findByEmail email a = None <-> ~ In email (map user_email (users a)).
Proof.
  unfold findByEmail. induction (users a) as [|u rest IH]; simpl.
  - split; [intros _ [] | reflexivity].
  - destruct (String.eqb (user_email u) email) eqn:Hu.
    + apply String.eqb_eq in Hu. split; [discriminate|].
      intros Hnot. exfalso. apply Hnot. left; exact Hu.
    + apply String.eqb_neq in Hu. rewrite IH. split.
      * intros Hrest [Hhead|Htail]; [exact (Hu Hhead) | exact (Hrest Htail)].
      * intros Hnot Htail. apply Hnot. right; exact Htail.
Qed.

Lemma findByEmail_some (email : string) (a : Accounts) (u : User) :
  findByEmail email a = Some u -> In u (users a) /\ user_email u = email.
Proof.
  unfold findByEmail. intros Hfound. apply find_some in Hfound.
  destruct Hfound as [Hin Heq]. split; [exact Hin | apply String.eqb_eq; exact Heq].
Qed.

Lemma registerSchema_email (value : JsValue) (data : RegisterData) :
  registerSchema value = Some data -> emailFormat (reg_email data) = true.
Proof.
  unfold registerSchema.
  destruct (getField "name" value) as [n|]; [|discriminate].
  destruct (getField "email" value) as [e|]; [|discriminate].
  destruct (getField "password" value) as [p|]; [|discriminate].
  destruct (getField "role" value) as [r|]; [|discriminate].
  destruct (z_string_min 1 n) as [name|]; [|discriminate].
  destruct (z_email e) as [email|] eqn:Hemail; [|discriminate].
  destruct (z_string_min 6 p) as [password|]; [|discriminate].
  destruct (z_role r) as [role|]; [|discriminate].
  intros Hdata. injection Hdata as <-. cbn [reg_email].
  destruct e as [| |b|q|s|fields]; simpl in Hemail; try discriminate.
  destruct (emailFormat s) eqn:Hs; [|discriminate]. congruence.
Qed.

Lemma register_step_keeps_emails_unique (req : Request) (a : Accounts) :
  NoDup (map user_email (users a)) ->
  NoDup (map user_email (users (store (snd (register req (arriving a)))))).
Proof.
  intros Hunique. rewrite register_run.
  destruct (registerSchema (req_body req)) as [data|]; [|exact Hunique].
  destruct (findByEmail (reg_email data) a) as [existing|] eqn:Hfind; [exact Hunique|].
  apply findByEmail_none in Hfind.
  cbn [authAnswer snd store users]. rewrite map_app. cbn [map newUser user_email].
  apply NoDup_app; [exact Hunique | constructor; [intros [] | constructor] |].
  intros e He [<-|[]]. exact (Hfind He).
Qed.

End AuthRuns.

(** Whatever requests reach [register], in whatever order, no two stored
    users ever share an email: the lookup before the insert keeps the
    addresses of the table distinct. *)
Theorem register_keeps_emails_unique
    {auth : AuthImported} (reqs : list Request) (a : Accounts) :
  NoDup (map user_email (users a)) ->
  NoDup (map user_email (users (replay register reqs a))).
Proof.
  revert a. induction reqs as [|req rest IH]; intros a Hunique; simpl.
  - exact Hunique.
  - apply IH. apply register_step_keeps_emails_unique. exact Hunique.
Qed.

Lemma register_keeps_emails_unique_witness :
  let again := bodyOnly (registerBody "Ana" "ana@example.org" "secret1" "USER") in
  let other := bodyOnly (registerBody "Bo" "bo@example.org" "secret2" "SERVICE_PROVIDER") in
  NoDup (map user_email
           (users (replay (@register plainAuth) [again; other; again] (mkAccounts [] 0)))) /\
  map user_email (users (replay (@register plainAuth) [again; other; again] (mkAccounts [] 0)))
    = ["ana@example.org"; "bo@example.org"].
Proof.
  split; [|reflexivity].
  apply (@register_keeps_emails_unique plainAuth). constructor.
Defined.

(** [register] answers 201 exactly when the schema accepts the body and the
    email is not stored yet; it then appends one user carrying the
    validated name, email and role and the hash of the password, and in
    every other case it leaves the accounts as they were. *)
Theorem register_creates_only_on_201
    {auth : AuthImported} (req : Request) (a : Accounts) :
  (replyStatus (register req (arriving a)) = Some 201 <->
   exists data,
     registerSchema (req_body req) = Some data /\
     ~ In (reg_email data) (map user_email (users a))) /\
  (forall data,
     registerSchema (req_body req) = Some data ->
     ~ In (reg_email data) (map user_email (users a)) ->
     store (snd (register req (arriving a)))
       = mkAccounts (users a ++ [newUser a data]) (S (drawn a))) /\
  (replyStatus (register req (arriving a)) <> Some 201 ->
   store (snd (register req (arriving a))) = a).
Proof.
  rewrite register_run. unfold replyStatus.
  destruct (registerSchema (req_body req)) as [data|].
  - destruct (findByEmail (reg_email data) a) as [existing|] eqn:Hfind.
    + assert (Hknown : ~ ~ In (reg_email data) (map user_email (users a))).
      { intros Hnot. apply findByEmail_none in Hnot. congruence. }
      split; [split; [discriminate|]|split].
      * intros [data' [Hdata Hnew]]. injection Hdata as <-. contradiction.
      * intros data' Hdata Hnew. injection Hdata as <-. contradiction.
      * reflexivity.
    + apply findByEmail_none in Hfind.
      split; [split; [intros _; exists data; split; [reflexivity | exact Hfind] | reflexivity]|].
      split.
      * intros data' Hdata _. injection Hdata as <-. reflexivity.
      * intros Hnot. exfalso. apply Hnot. reflexivity.
  - split; [split; [discriminate | intros [data [Hdata _]]; discriminate]|].
    split; [intros data Hdata; discriminate | reflexivity].
Qed.

(** A password of fewer than six characters is refused with 400 before the
    table is read, whatever the other fields. *)
Theorem register_refuses_short_password
    {auth : AuthImported} (req : Request) (a : Accounts) (password : string) :
  getField "password" (req_body req) = Some (JString password) ->
  (String.length password < 6)%nat ->
  register req (arriving a) = authAnswer a 400 (InvalidInput "Invalid input").
Proof.
  intros Hfield Hshort. rewrite register_run.
  assert (Hrefused : registerSchema (req_body req) = None).
  { unfold registerSchema. rewrite Hfield.
    destruct (getField "name" _) as [n|]; [|reflexivity].
    destruct (getField "email" _) as [e|]; [|reflexivity].
    destruct (getField "role" _) as [r|]; [|reflexivity].
    destruct (z_string_min 1 n); [|reflexivity].
    destruct (z_email e); [|reflexivity].
    cbn [z_string_min].
    destruct (Nat.leb 6 (String.length password)) eqn:Hlong; [|reflexivity].
    apply Nat.leb_le in Hlong. lia. }
  rewrite Hrefused. reflexivity.
Qed.

Lemma register_refuses_short_password_witness :
  let a := mkAccounts [] 0 in
  @register plainAuth (bodyOnly (registerBody "Ana" "ana@example.org" "12345" "USER"))
    (arriving a) = authAnswer a 400 (InvalidInput "Invalid input") /\
  replyStatus
    (@register plainAuth (bodyOnly (registerBody "Ana" "ana@example.org" "123456" "USER"))
       (arriving a)) = Some 201.
Proof.
  split; [|reflexivity].
  apply (@register_refuses_short_password plainAuth
           (bodyOnly (registerBody "Ana" "ana@example.org" "12345" "USER"))
           (mkAccounts [] 0) "12345"); [reflexivity | simpl; lia].
Defined.

(** [login] issues a token only for a stored user: a 200 means the body
    passed the schema, a user with that email is stored, the password
    matches its hash, the token is signed over that user's id and role, and
    the user table is as it was. *)
Theorem login_is_sound
    {auth : AuthImported} (req : Request) (a : Accounts) :
  replyStatus (login req (arriving a)) = Some 200 ->
  exists data user,
    loginSchema (req_body req) = Some data /\
    In user (users a) /\
    user_email user = login_email data /\
    bcrypt_compare (login_password data) (passwordHash user) = true /\
    replied (snd (login req (arriving a)))
      = Some (mkReply 200 (TokenIssued (tokenOf user (drawn a)))) /\
    users (store (snd (login req (arriving a)))) = users a.
Proof.
  rewrite login_run. unfold replyStatus.
  destruct (loginSchema (req_body req)) as [data|]; [|discriminate].
  destruct (findByEmail (login_email data) a) as [user|] eqn:Hfind; [|discriminate].
  destruct (bcrypt_compare _ _) eqn:Hmatch; [|discriminate].
  intros _. exists data, user.
  destruct (findByEmail_some _ _ _ Hfind) as [Hin Hemail].
  repeat split; assumption || reflexivity.
Qed.

Lemma login_is_sound_witness :
  let ana := mkUser "user-0" "Ana" "ana@example.org" (plainHash "secret1" 0) "USER" in
  let a := mkAccounts [ana] 1 in
  let req := bodyOnly (loginBody "ana@example.org" "secret1") in
  exists data user,
    @loginSchema plainAuth (req_body req) = Some data /\
    In user (users a) /\
    user_email user = login_email data /\
    plainCompare (login_password data) (passwordHash user) = true /\
    replied (snd (@login plainAuth req (arriving a)))
      = Some (mkReply 200 (TokenIssued (@tokenOf plainAuth user (drawn a)))) /\
    users (store (snd (@login plainAuth req (arriving a)))) = users a.
Proof.
  exact (@login_is_sound plainAuth
           (bodyOnly (loginBody "ana@example.org" "secret1"))
           (mkAccounts
              [mkUser "user-0" "Ana" "ana@example.org" (plainHash "secret1" 0) "USER"] 1)
           eq_refl).
Defined.

(** A refused login does not tell an unknown email from a wrong password:
    for a body the schema accepts, every answer other than 200 is the same
    401, over whatever user tables, and leaves the accounts unchanged. *)
Theorem login_failure_is_uniform
    {auth : AuthImported} (req : Request) (a1 a2 : Accounts) :
  loginSchema (req_body req) <> None ->
  replyStatus (login req (arriving a1)) <> Some 200 ->
  replyStatus (login req (arriving a2)) <> Some 200 ->
  replied (snd (login req (arriving a1))) = replied (snd (login req (arriving a2))) /\
  replied (snd (login req (arriving a1)))
    = Some (mkReply 401 (AuthError "Invalid credentials")) /\
  store (snd (login req (arriving a1))) = a1 /\
  store (snd (login req (arriving a2))) = a2.
Proof.
  rewrite !login_run. unfold replyStatus.
  destruct (loginSchema (req_body req)) as [data|]; [|intros Hschema; contradiction].
  intros _ Hfirst Hsecond.
  assert (Hrefused : forall a,
    option_map reply_status
      (replied (snd
         match findByEmail (login_email data) a with
         | Some user =>
             if bcrypt_compare (login_password data) (passwordHash user)
             then authAnswer (mkAccounts (users a) (S (drawn a))) 200
                    (TokenIssued (tokenOf user (drawn a)))
             else authAnswer a 401 (AuthError "Invalid credentials")
         | None => authAnswer a 401 (AuthError "Invalid credentials")
         end)) <> Some 200 ->
    match findByEmail (login_email data) a with
    | Some user =>
        if bcrypt_compare (login_password data) (passwordHash user)
        then authAnswer (mkAccounts (users a) (S (drawn a))) 200
               (TokenIssued (tokenOf user (drawn a)))
        else authAnswer a 401 (AuthError "Invalid credentials")
    | None => authAnswer a 401 (AuthError "Invalid credentials")
    end = authAnswer a 401 (AuthError "Invalid credentials")).
  { intros a. destruct (findByEmail (login_email data) a) as [user|]; [|reflexivity].
    destruct (bcrypt_compare _ _); [|reflexivity].
    intros Hnot. exfalso. apply Hnot. reflexivity. }
  rewrite (Hrefused a1 Hfirst), (Hrefused a2 Hsecond).
  repeat split.
Qed.

Lemma login_failure_is_uniform_witness :
  let ana := mkUser "user-0" "Ana" "ana@example.org" (plainHash "secret1" 0) "USER" in
  let req := bodyOnly (loginBody "ana@example.org" "wrong-password") in
  replied (snd (@login plainAuth req (arriving (mkAccounts [] 0))))
    = replied (snd (@login plainAuth req (arriving (mkAccounts [ana] 1)))).
Proof.
  refine (proj1 (@login_failure_is_uniform plainAuth
            (bodyOnly (loginBody "ana@example.org" "wrong-password"))
            (mkAccounts [] 0)
            (mkAccounts
               [mkUser "user-0" "Ana" "ana@example.org" (plainHash "secret1" 0) "USER"] 1)
            _ _ _)); discriminate.
Defined.

(** ** From register to the routes *)

Lemma prefix_append (p t : string) : String.prefix p (p ++ t) = true.
Proof.
  induction p as [|a p IH]; simpl.
  - destruct t; reflexivity.
  - destruct (Ascii.ascii_dec a a) as [_|Hdiff]; [exact IH | contradiction].
Qed.

Lemma substring_append (p t : string) :
  String.substring (String.length p) (String.length (p ++ t) - String.length p) (p ++ t) = t.
Proof.
  induction p as [|a p IH]; simpl.
  - rewrite Nat.sub_0_r. apply substring_whole.
  - exact IH.
Qed.

Lemma find_appended {A} (f : A -> bool) (l : list A) (x : A) :
  find f l = None -> f x = true -> find f (l ++ [x]) = Some x.
Proof.
  induction l as [|y rest IH]; simpl; intros Hnone Hx.
  - rewrite Hx. reflexivity.
  - destruct (f y); [discriminate | exact (IH Hnone Hx)].
Qed.

Section Bearer.

Context {imported : Imported}.

(** [authenticate] hands a request with a verified bearer token on, with
    the decoded principal as [req.user]. *)
Lemma authenticate_bearer (req : Request) (token : string) (p : Principal)
    (next : Request -> Handler unit) (w : World) :
  authorization req = Some ("Bearer " ++ token) ->
  jwt_verify token = Some p ->
  authenticate req next w = next (withUser req p) w.
Proof.
  intros Hheader Hverify. unfold authenticate. rewrite Hheader.
  rewrite prefix_append. cbn [negb].
  change 7%nat with (String.length "Bearer ").
  rewrite substring_append, Hverify. reflexivity.
Qed.

End Bearer.

Section AfterRegister.

Context {auth : AuthImported}.

Lemma loginSchema_loginBody (email password : string) :
  emailFormat email = true ->
  loginSchema (loginBody email password) = Some (mkLoginData email password).
Proof.
  intros Hformat. unfold loginSchema, loginBody.
  cbn [getField lookupField String.eqb Ascii.eqb Bool.eqb z_email z_string_min Nat.leb].
  rewrite Hformat. reflexivity.
Qed.

(** The login that follows a successful register, with the address and
    password just registered. *)
Lemma login_after_register (req : Request) (a : Accounts) (data : RegisterData) :
  registerSchema (req_body req) = Some data ->
  ~ In (reg_email data) (map user_email (users a)) ->
  bcrypt_compare (reg_password data) (bcrypt_hash (reg_password data) (drawn a)) = true ->
  login (bodyOnly (loginBody (reg_email data) (reg_password data)))
        (arriving (store (snd (register req (arriving a))))) =
  authAnswer (mkAccounts (users a ++ [newUser a data]) (S (S (drawn a)))) 200
             (TokenIssued (tokenOf (newUser a data) (S (drawn a)))).
Proof.
  intros Hschema Hnew Hmatch.
  rewrite register_run, Hschema.
  apply findByEmail_none in Hnew. rewrite Hnew.
  cbn [authAnswer snd store].
  rewrite login_run. cbn [bodyOnly req_body].
  rewrite (loginSchema_loginBody _ _ (registerSchema_email _ _ Hschema)).
  cbn [login_email login_password].
  assert (Hfound : findByEmail (reg_email data)
                     (mkAccounts (users a ++ [newUser a data]) (S (drawn a)))
                   = Some (newUser a data)).
  { unfold findByEmail. cbn [users]. apply find_appended; [exact Hnew|].
    cbn [newUser user_email]. apply String.eqb_refl. }
  rewrite Hfound. cbn [newUser passwordHash]. rewrite Hmatch. reflexivity.
Qed.

End AfterRegister.

(** Register, then log in, then call a route: when the hash of the
    password compares equal to it, a user just registered logs in with the
    same address and password and gets a token signed over the new id and
    the registered role; and when that token verifies to that principal,
    [authenticate] passes a request carrying it as a bearer token on, with
    that id and role as [req.user]. *)
Theorem registered_user_reaches_the_routes
    {auth : AuthImported} {imported : Imported}
    (req : Request) (a : Accounts) (data : RegisterData) :
  registerSchema (req_body req) = Some data ->
  ~ In (reg_email data) (map user_email (users a)) ->
  bcrypt_compare (reg_password data) (bcrypt_hash (reg_password data) (drawn a)) = true ->
  let token := tokenOf (newUser a data) (S (drawn a)) in
  let principal := mkPrincipal (user_id (newUser a data)) (reg_role data) in
  jwt_verify token = Some principal ->
  replied (snd (login (bodyOnly (loginBody (reg_email data) (reg_password data)))
                      (arriving (store (snd (register req (arriving a)))))))
    = Some (mkReply 200 (TokenIssued token)) /\
  forall (call : Request) (next : Request -> Handler unit) (w : World),
    authorization call = Some ("Bearer " ++ token) ->
    authenticate call next w = next (withUser call principal) w.
Proof.
  intros Hschema Hnew Hmatch token principal Hverify. split.
  - rewrite (login_after_register req a data Hschema Hnew Hmatch). reflexivity.
  - intros call next w Hheader.
    exact (authenticate_bearer call token principal next w Hheader Hverify).
Qed.

Lemma registered_user_reaches_the_routes_witness :
  let a := mkAccounts [] 0 in
  let req := bodyOnly (registerBody "Bo" "bo@example.org" "secret2" "SERVICE_PROVIDER") in
  let token := "user-0.SERVICE_PROVIDER.1" in
  replied (snd (@login plainAuth (bodyOnly (loginBody "bo@example.org" "secret2"))
                  (arriving (store (snd (@register plainAuth req (arriving a)))))))
    = Some (mkReply 200 (TokenIssued token)) /\
  forall (call : Request) (next : Request -> Handler unit) (w : World),
    authorization call = Some ("Bearer " ++ token) ->
    @authenticate plainTokens call next w
    = next (withUser call (mkPrincipal "user-0" "SERVICE_PROVIDER")) w.
Proof.
  exact (@registered_user_reaches_the_routes plainAuth plainTokens
           (bodyOnly (registerBody "Bo" "bo@example.org" "secret2" "SERVICE_PROVIDER"))
           (mkAccounts [] 0)
           (mkRegisterData "Bo" "bo@example.org" "secret2" "SERVICE_PROVIDER")
           eq_refl (fun H : False => H) eq_refl eq_refl).
Defined.

(** A bearer token that verifies to a SERVICE_PROVIDER is all the routes
    ask: each then runs its handler on the request with that principal as
    [req.user], whoever owns the service addressed. *)
Theorem provider_token_reaches_both_handlers
    {imported : Imported} (req : Request) (p : Principal) (w : World) :
  providerToken req p ->
  post_services req w = CreateService (withUser req p) w /\
  post_services_availability req w = SetAvailability (withUser req p) w.
Proof.
  intros [token [Hheader [Hverify Hrole]]].
  unfold post_services, post_services_availability.
  rewrite !(authenticate_bearer req token p _ w Hheader Hverify).
  unfold isService_Provider. cbn [req_user withUser roleIs].
  rewrite Hrole. split; reflexivity.
Qed.

Lemma provider_token_reaches_both_handlers_witness :
  let req := requestOf "token-provider-2" "svc-0" (availabilityBody 4 "09:00" "12:00") in
  let p := mkPrincipal "provider-2" "SERVICE_PROVIDER" in
  let w := fresh (mkDatabase [physiotherapy] []) in
  @post_services schemaOperands req w = CreateService (withUser req p) w /\
  @post_services_availability schemaOperands req w
    = @SetAvailability schemaOperands (withUser req p) w.
Proof.
  apply (@provider_token_reaches_both_handlers schemaOperands
           (requestOf "token-provider-2" "svc-0" (availabilityBody 4 "09:00" "12:00"))
           (mkPrincipal "provider-2" "SERVICE_PROVIDER")
           (fresh (mkDatabase [physiotherapy] []))).
  exists "token-provider-2". repeat split.
Defined.

(** ** Bodies the schemas refuse *)

(** A body its schema refuses is answered 500 by both handlers of the
    service routes, whose catch does not tell a ZodError from any other
    throw, and 400 by [register] and [login], whose catch does; none of the
    four stores anything. *)
Theorem refused_bodies_are_500_on_the_service_routes
    {imported : Imported} {auth : AuthImported}
    (req : Request) (d : Database) (a : Accounts) :
  ZodForCreateService (req_body req) = None ->
  zodForSetAvailability (req_body req) = None ->
  registerSchema (req_body req) = None ->
  loginSchema (req_body req) = None ->
  CreateService req (fresh d) = answered d 500 " Internal server error" /\
  SetAvailability req (fresh d) = answered d 500 "Internal server error" /\
  register req (arriving a) = authAnswer a 400 (InvalidInput "Invalid input") /\
  login req (arriving a) = authAnswer a 400 (AuthError "Invalid input").
Proof.
  intros Hcreate Havailability Hregister Hlogin.
  rewrite CreateService_run, SetAvailability_run, register_run, login_run.
  rewrite Hcreate, Havailability, Hregister, Hlogin.
  repeat split. destruct (req_user req); reflexivity.
Qed.

Lemma refused_bodies_are_500_on_the_service_routes_witness :
  let d := mkDatabase [physiotherapy] [] in
  let a := mkAccounts [] 0 in
  let req := asUser provider1 "svc-0" (JObject []) in
  CreateService req (fresh d) = answered d 500 " Internal server error" /\
  @SetAvailability schemaOperands req (fresh d) = answered d 500 "Internal server error" /\
  @register plainAuth req (arriving a) = authAnswer a 400 (InvalidInput "Invalid input") /\
  @login plainAuth req (arriving a) = authAnswer a 400 (AuthError "Invalid input").
Proof.
  exact (@refused_bodies_are_500_on_the_service_routes schemaOperands plainAuth
           (asUser provider1 "svc-0" (JObject []))
           (mkDatabase [physiotherapy] []) (mkAccounts [] 0)
           eq_refl eq_refl eq_refl eq_refl).
Defined.

(** ** SetAvailability as the imports of line 6 make it run *)

(** The parse throws on every body, the catch answers, and nothing after
    lines 181-183 runs. *)
Lemma SetAvailability_as_imported
    (verify : string -> option Principal) (req : Request) (d : Database) :
  @SetAvailability (zodImports verify) req (fresh d)
  = answered d 500 "Internal server error".
Proof. rewrite SetAvailability_run. reflexivity. Qed.

Lemma post_availability_as_imported
    (verify : string -> option Principal) (req : Request) (d : Database) :
  db (snd (@post_services_availability (zodImports verify) req (fresh d))) = d /\
  (status_of (@post_services_availability (zodImports verify) req (fresh d)) = Some 401 \/
   status_of (@post_services_availability (zodImports verify) req (fresh d)) = Some 403 \/
   status_of (@post_services_availability (zodImports verify) req (fresh d)) = Some 500).
Proof.
  unfold post_services_availability.
  destruct (@guarded_route (zodImports verify) req d)
    as [[code [error [Hcode Hr]]]|[p [_ Hr]]]; rewrite Hr.
  - split; [reflexivity|].
    destruct Hcode as [-> | ->]; [left | right; left]; reflexivity.
  - rewrite SetAvailability_as_imported. split; [reflexivity|]. right; right; reflexivity.
Qed.

Lemma serve_availability_as_imported
    (verify : string -> option Principal) (reqs : list Request) (d : Database) :
  serve (@post_services_availability (zodImports verify)) reqs d = d.
Proof.
  revert d. induction reqs as [|req rest IH]; intros d; simpl.
  - reflexivity.
  - rewrite (proj1 (post_availability_as_imported verify req d)). apply IH.
Qed.

(** C1: a candidate window is refused with an overlap conflict exactly when
    it strictly overlaps a stored window of the same service and day, so
    that 09:00-10:00 is admitted next to 10:00-11:00 and 09:00-10:01 is
    refused.  The handler does not tell them apart: the touching candidate,
    which the specification's test finds free of conflict, is refused like
    the overlapping one, both with the catch-all 500 "Internal server
    error", and neither is stored. *)
Theorem SetAvailability_refuses_touching_window (verify : string -> option Principal) :
  let stored := window "av-0" 4 "10:00" "11:00" in
  let d := mkDatabase [physiotherapy] [stored] in
  let touching := asUser provider1 "svc-0" (availabilityBody 4 "09:00" "10:00") in
  let overlapping := asUser provider1 "svc-0" (availabilityBody 4 "09:00" "10:01") in
  Spec.conflict (window "av-1" 4 "09:00" "10:00") stored = false /\
  Spec.conflict (window "av-1" 4 "09:00" "10:01") stored = true /\
  @SetAvailability (zodImports verify) touching (fresh d)
    = answered d 500 "Internal server error" /\
  @SetAvailability (zodImports verify) overlapping (fresh d)
    = answered d 500 "Internal server error".
Proof.
  cbv zeta. split; [reflexivity|]. split; [reflexivity|].
  split; apply SetAvailability_as_imported.
Qed.

(** C2: in every state reached by a sequence of SetAvailability calls the
    windows of one service and day are pairwise non-overlapping.  Whatever
    requests reach the route, in whatever order, windows that are pairwise
    non-overlapping at the start are so at the end. *)
Theorem availability_windows_stay_non_overlapping
    (verify : string -> option Principal) (reqs : list Request) (d : Database) :
  Spec.pairwiseNonOverlapping (availabilities d) = true ->
  Spec.pairwiseNonOverlapping
    (availabilities (serve (@post_services_availability (zodImports verify)) reqs d)) = true.
Proof.
  intros Hinvariant. rewrite serve_availability_as_imported. exact Hinvariant.
Qed.

Lemma availability_windows_stay_non_overlapping_witness :
  let d := mkDatabase [physiotherapy]
             [window "av-0" 4 "09:00" "10:00"; window "av-1" 4 "10:00" "11:00"] in
  let reqs := [requestOf "token-provider-1" "svc-0" (availabilityBody 4 "09:30" "10:30");
               requestOf "token-provider-1" "svc-0" (availabilityBody 4 "11:00" "12:00")] in
  Spec.pairwiseNonOverlapping
    (availabilities (serve (@post_services_availability schemaOperands) reqs d)) = true.
Proof.
  exact (availability_windows_stay_non_overlapping verifyToken
           [requestOf "token-provider-1" "svc-0" (availabilityBody 4 "09:30" "10:30");
            requestOf "token-provider-1" "svc-0" (availabilityBody 4 "11:00" "12:00")]
           (mkDatabase [physiotherapy]
              [window "av-0" 4 "09:00" "10:00"; window "av-1" 4 "10:00" "11:00"])
           eq_refl).
Defined.


(** C4: the start and end times of a window request go through one
    canonical parser, and the request fails with the 400 of an invalid time
    format exactly when one of them is malformed.  The handler answers the
    catch-all 500 "Internal server error" to malformed times, where a 400
    is due, and the same 500 to well-formed ones, where none is. *)
Theorem SetAvailability_answers_500_whatever_the_times
    (verify : string -> option Principal) :
  let d := mkDatabase [physiotherapy] [] in
  let malformed := asUser provider1 "svc-0" (availabilityBody 4 "25:99" "9am") in
  let wellFormed := asUser provider1 "svc-0" (availabilityBody 4 "09:00" "12:00") in
  Spec.parseTimeOfDay "25:99" = None /\
  Spec.parseTimeOfDay "9am" = None /\
  Spec.parseTimeOfDay "09:00" = Some 540 /\
  Spec.parseTimeOfDay "12:00" = Some 720 /\
  @SetAvailability (zodImports verify) malformed (fresh d)
    = answered d 500 "Internal server error" /\
  @SetAvailability (zodImports verify) wellFormed (fresh d)
    = answered d 500 "Internal server error".
Proof.
  cbv zeta. repeat (split; [reflexivity|]).
  split; apply SetAvailability_as_imported.
Qed.

(** C5: a request by a principal who is not the provider owning the service
    fails with 403 and creates no window.  The route checks the role only:
    whoever holds a token of a SERVICE_PROVIDER, owner or not, reaches the
    handler and is answered its catch-all 500 "Internal server error", not
    403; no window is created. *)
Theorem post_availability_answers_500_not_403
    (verify : string -> option Principal) (req : Request) (p : Principal) (d : Database) :
  @providerToken (zodImports verify) req p ->
  @post_services_availability (zodImports verify) req (fresh d)
  = answered d 500 "Internal server error".
Proof.
  intros [token [Hheader [Hverify Hrole]]].
  unfold post_services_availability.
  rewrite (@authenticate_bearer (zodImports verify) req token p _ _ Hheader Hverify).
  unfold isService_Provider. cbn [req_user withUser roleIs].
  rewrite Hrole. cbn [String.eqb Ascii.eqb Bool.eqb negb].
  apply SetAvailability_as_imported.
Qed.

Lemma post_availability_answers_500_not_403_witness :
  let d := mkDatabase [physiotherapy] [] in
  let body := availabilityBody 4 "09:00" "12:00" in
  userId physiotherapy = "provider-1" /\
  @post_services_availability schemaOperands
     (requestOf "token-provider-2" "svc-0" body) (fresh d)
  = answered d 500 "Internal server error" /\
  @post_services_availability schemaOperands
     (requestOf "token-provider-1" "svc-0" body) (fresh d)
  = answered d 500 "Internal server error".
Proof.
  split; [reflexivity|]. split.
  - apply (post_availability_answers_500_not_403 verifyToken
             (requestOf "token-provider-2" "svc-0" (availabilityBody 4 "09:00" "12:00"))
             (mkPrincipal "provider-2" "SERVICE_PROVIDER")).
    exists "token-provider-2". repeat split.
  - apply (post_availability_answers_500_not_403 verifyToken
             (requestOf "token-provider-1" "svc-0" (availabilityBody 4 "09:00" "12:00"))
             (mkPrincipal "provider-1" "SERVICE_PROVIDER")).
    exists "token-provider-1". repeat split.
Defined.

(** C6: a request naming a service that does not exist fails with the
    not-found failure, mapped to 404.  The handler never looks the service
    up: the request is answered status 500 with the catch-all "Internal
    server error", the answer an existing service gets too. *)
Theorem SetAvailability_missing_service_is_catch_all_500
    (verify : string -> option Principal) (req : Request) (d : Database) :
  findService req d = None ->
  @SetAvailability (zodImports verify) req (fresh d)
  = answered d 500 "Internal server error".
Proof.
  intros _. apply SetAvailability_as_imported.
Qed.

Lemma SetAvailability_missing_service_is_catch_all_500_witness :
  let d := mkDatabase [physiotherapy] [] in
  let body := availabilityBody 4 "09:00" "12:00" in
  @SetAvailability schemaOperands (asUser provider1 "svc-9" body) (fresh d)
  = answered d 500 "Internal server error" /\
  @SetAvailability schemaOperands (asUser provider1 "svc-9" body) (fresh d)
  = @SetAvailability schemaOperands (asUser provider1 "svc-0" body) (fresh d).
Proof.
  split; [|reflexivity].
  exact (SetAvailability_missing_service_is_catch_all_500 verifyToken
           (asUser provider1 "svc-9" (availabilityBody 4 "09:00" "12:00"))
           (mkDatabase [physiotherapy] []) eq_refl).
Defined.


(** Whatever requests reach POST /services/:serviceId/availability, in
    whatever order, the database is left exactly as it was, and every
    request is answered 401, 403 or 500: the route never creates a
    window. *)
Theorem availability_route_never_stores
    (verify : string -> option Principal) (reqs : list Request) (d : Database) :
  serve (@post_services_availability (zodImports verify)) reqs d = d /\
  Forall (fun req =>
    let r := @post_services_availability (zodImports verify) req (fresh d) in
    db (snd r) = d /\
    (status_of r = Some 401 \/ status_of r = Some 403 \/ status_of r = Some 500)) reqs.
Proof.
  split; [apply serve_availability_as_imported|].
  apply Forall_forall. intros req _. apply post_availability_as_imported.
Qed.
